(** * A shallow embedding of avx2rvv: AVX-512 intrinsics emulated on RVV,
    and of the conformance harness that tests them.

    Sources: src/avx2rvv.h (emulation layer), src/tests/avx_impl.cpp
    (test vectors and per-operation loop), src/tests/main.cpp (driver).

    Data model.  An [__m512i] is the union of lane views over 64 bytes; it is
    modelled as its byte list [m512i] (little-endian, as on RISC-V), each view
    being an accessor over those bytes.  A byte is read modulo 256, so every
    list stands for a well-formed register.

    RVV model.  The hardware is a parameter [vlen] (the VLEN of the machine,
    in bits).  [vsetvl] returns [min AVL VLMAX]; the RVV 1.0 specification
    fixes this value whenever [AVL <= VLMAX] or [AVL >= 2 * VLMAX], which are
    the only cases met below.  A vector register group holding [vl] active
    elements is the list of those elements.  Stores into a local left
    uninitialised by the C code ([__m512i result;]) keep that local's prior,
    indeterminate, content, which is an explicit argument [junk]. *)

From Stdlib Require Import ZArith Lia List Bool Sorted.
Import ListNotations.
Local Open Scope Z_scope.

(** ** Lane access over the byte representation *)

Definition m512i := list Z.

(** Byte [j] of a register, [u8[j]]. *)
Definition get_u8 (v : m512i) (j : nat) : Z := nth j v 0 mod 256.

(** 16-bit unsigned lane [i], [u16[i]] (little-endian). *)
Definition get_u16 (v : m512i) (i : nat) : Z :=
  get_u8 v (2 * i) + 256 * get_u8 v (2 * i + 1).

(** Signed reading of a 16-bit lane, [i16[i]]. *)
Definition to_i16 (x : Z) : Z := if x <? 32768 then x else x - 65536.
Definition get_i16 (v : m512i) (i : nat) : Z := to_i16 (get_u16 v i).

(** ** RVV primitives *)

Definition vlmax (vlen sew lmul : nat) : nat := lmul * vlen / sew.

Definition vsetvl (vlen sew lmul avl : nat) : nat := Nat.min avl (vlmax vlen sew lmul).

(** [vle8] / [vle16] from a register in memory. *)
Definition vle8 (vl : nat) (v : m512i) : list Z := map (get_u8 v) (seq 0 vl).
Definition vle16 (vl : nat) (v : m512i) : list Z := map (get_u16 v) (seq 0 vl).

(** [vse8] into a 64-byte register [dst]: the first [vl] bytes are written. *)
Definition vse8 (vl : nat) (vals : list Z) (dst : m512i) : m512i :=
  map (fun j => if (j <? vl)%nat then nth j vals 0 mod 256 else nth j dst 0)
      (seq 0 64).

(** [vse16] into a 64-byte register [dst]: the first [vl] 16-bit elements. *)
(** Byte [j] of the little-endian 16-bit element that covers it. *)
Definition byte_of (x : Z) (j : nat) : Z :=
  if Nat.even j then x mod 256 else (x / 256) mod 256.

Definition vse16 (vl : nat) (vals : list Z) (dst : m512i) : m512i :=
  map (fun j =>
         if (j <? 2 * vl)%nat then byte_of (nth (j / 2) vals 0) j
         else nth j dst 0)
      (seq 0 64).

(** Element-wise operations at SEW = 16 and SEW = 8 (unsigned wrap-around). *)
Definition vadd_u16 (xs ys : list Z) : list Z :=
  map (fun p => (fst p + snd p) mod 65536) (combine xs ys).
Definition vmv_v_x (vl : nat) (x : Z) : list Z := repeat x vl.
Definition vsrl_vx_u16 (xs : list Z) (sh : Z) : list Z :=
  map (fun x => Z.shiftr x sh) xs.
Definition vminu (xs ys : list Z) : list Z :=
  map (fun p => Z.min (fst p) (snd p)) (combine xs ys).
Definition vmseq_vx (xs : list Z) (c : Z) : list bool := map (fun x => x =? c) xs.
Definition vmseq_vv (xs ys : list Z) : list bool :=
  map (fun p => fst p =? snd p) (combine xs ys).
Definition vmslt_vv (xs ys : list Z) : list bool :=
  map (fun p => fst p <? snd p) (combine xs ys).
(** [vmerge_vvm op1 op2 mask]: [mask[i] ? op2[i] : op1[i]]. *)
Definition vmerge_vvm (op1 op2 : list Z) (mask : list bool) : list Z :=
  map (fun t : Z * (Z * bool) => let '(x, (y, m)) := t in if m then y else x)
      (combine op1 (combine op2 mask)).

(** ** _mm512_avg_epu16 *)

Definition _mm512_avg_epu16 (vlen : nat) (a b junk : m512i) : m512i :=
  let vl := vsetvl vlen 16 8 32 in
  let va := vle16 vl a in
  let vb := vle16 vl b in
  let vsum := vadd_u16 va vb in
  let vone := vmv_v_x vl 1 in
  let vsum := vadd_u16 vsum vone in
  let vavg := vsrl_vx_u16 vsum 1 in
  vse16 vl vavg junk.

(** Signed element loads ([vle16_v_i16m*]) read the [i16] view. *)
Definition vle16_i16 (vl : nat) (v : m512i) : list Z := map (get_i16 v) (seq 0 vl).

(** [vsm_v_b4(mask_arr, vcmp, vl)] into a zero-initialised [uint8_t[4]]
    followed by [*(uint32_t * )mask_arr]: bit [i] of the result is mask
    element [i] for [i < vl].  ([vl] is a multiple of 8 for every VLEN that
    is a power of two and at least 32, so no partially written byte.) *)
Fixpoint bits_to_Z (bs : list bool) : Z :=
  match bs with
  | [] => 0
  | b :: r => (if b then 1 else 0) + 2 * bits_to_Z r
  end.

Definition vsm_u32 (vcmp : list bool) : Z := bits_to_Z (firstn 32 vcmp).

(** ** _mm512_cmpeq_epi16_mask / _mm512_cmpgt_epi16_mask *)

Definition _mm512_cmpeq_epi16_mask (vlen : nat) (a b : m512i) : Z :=
  let vl := vsetvl vlen 16 4 32 in
  let va := vle16_i16 vl a in
  let vb := vle16_i16 vl b in
  vsm_u32 (vmseq_vv va vb).

Definition _mm512_cmpgt_epi16_mask (vlen : nat) (a b : m512i) : Z :=
  let vl := vsetvl vlen 16 4 32 in
  let va := vle16_i16 vl a in
  let vb := vle16_i16 vl b in
  vsm_u32 (vmslt_vv vb va).

(** ** Masked unsigned minimum *)

(** [mask_arr[i] = (k & (1 << i)) ? 0xFFFF : 0x0000] for [i < 32]. *)
Definition mask_arr16 (k : Z) : list Z :=
  map (fun i => if negb (Z.land k (Z.shiftl 1 (Z.of_nat i)) =? 0) then 65535 else 0)
      (seq 0 32).

Definition _mm512_mask_min_epu16 (vlen : nat) (src : m512i) (k : Z) (a b junk : m512i)
  : m512i :=
  let vl := vsetvl vlen 16 8 32 in
  let vsrc := vle16 vl src in
  let va := vle16 vl a in
  let vb := vle16 vl b in
  let mask := vmseq_vx (firstn vl (mask_arr16 k)) 65535 in
  let vmin := vminu va vb in
  let result := vmerge_vvm vsrc vmin mask in
  vse16 vl result junk.

(** [mask_arr[i] = (k & (1ULL << i)) ? 0xFF : 0x00] for [i < 64]. *)
Definition mask_arr8 (k : Z) : list Z :=
  map (fun i => if negb (Z.land k (Z.shiftl 1 (Z.of_nat i)) =? 0) then 255 else 0)
      (seq 0 64).

Definition _mm512_mask_min_epu8 (vlen : nat) (src : m512i) (k : Z) (a b junk : m512i)
  : m512i :=
  let vl := vsetvl vlen 8 8 64 in
  let vsrc := vle8 vl src in
  let va := vle8 vl a in
  let vb := vle8 vl b in
  let mask := vmseq_vx (firstn vl (mask_arr8 k)) 255 in
  let vmin := vminu va vb in
  let result := vmerge_vvm vsrc vmin mask in
  vse8 vl result junk.

(** ** Rounding-mode translation *)

Definition _MM_ROUND_TO_NEAREST_INT : Z := 0.
Definition _MM_ROUND_TO_NEG_INF : Z := 1.
Definition _MM_ROUND_TO_POS_INF : Z := 2.
Definition _MM_ROUND_TO_ZERO : Z := 3.
Definition _MM_ROUND_CUR_DIRECTION : Z := 4.

Definition __riscv_frm_rne : Z := 0.
Definition __riscv_frm_rdn : Z := 1.
Definition __riscv_frm_rup : Z := 2.
Definition __riscv_frm_rtz : Z := 3.

(** [switch (aux_mode & 0x03)] with its [default] branch. *)
Definition aux512_round_mode_to_rvv (aux_mode : Z) : Z :=
  match Z.land aux_mode 3 with
  | 0 => __riscv_frm_rne
  | 1 => __riscv_frm_rdn
  | 2 => __riscv_frm_rup
  | 3 => __riscv_frm_rtz
  | _ => __riscv_frm_rne
  end.

(** ** Loads and stores through memory objects

    A C object in memory (the caller's buffer) is its byte list; accessing
    it outside its bounds is undefined behaviour, modelled as [None]. *)

(** [_mm512_loadu_epi8]: [vl = vsetvl_e8m1(64)], one [vle8] from [mem_addr],
    one [vse8] into the uninitialised [result]. *)
Definition _mm512_loadu_epi8 (vlen : nat) (mem : list Z) (junk : m512i) : option m512i :=
  let vl := vsetvl vlen 8 1 64 in
  if (vl <=? length mem)%nat then Some (vse8 vl (vle8 vl mem) junk) else None.

(** [_mm512_loadu_epi16]: [vl = vsetvlmax_e16m4()], one [vle16] from
    [mem_addr] ([2 * vl] bytes), one [vse16] into [int16_t buffer[32]], whose
    bytes are then returned as the register. *)
Definition _mm512_loadu_epi16 (vlen : nat) (mem : list Z) (buffer : m512i) : option m512i :=
  let vl := vlmax vlen 16 4 in
  if (2 * vl <=? length mem)%nat then
    if (vl <=? 32)%nat then Some (vse16 vl (vle16 vl mem) buffer) else None
  else None.

(** [vse16(dst + off, vals, length vals)] into a memory object. *)
Definition store16_map (off : nat) (vals : list Z) (dst : list Z) : list Z :=
  map (fun j =>
         if (2 * off <=? j)%nat && (j <? 2 * (off + length vals))%nat then
           byte_of (nth (j / 2 - off) vals 0) j
         else nth j dst 0)
      (seq 0 (length dst)).

Definition store16_mem (off : nat) (vals : list Z) (dst : list Z) : option (list Z) :=
  if (2 * (off + length vals) <=? length dst)%nat then Some (store16_map off vals dst)
  else None.

(** The passes [for (int i = 0; i < 4; i++)] of [_mm512_storeu_epi16]:
    [vle16(&a.u16[i*8], vl)] then [vse16(dst + i*8, vec, vl)]. *)
Fixpoint storeu_epi16_passes (vl : nat) (a : m512i) (is : list nat) (dst : list Z)
  : option (list Z) :=
  match is with
  | [] => Some dst
  | i :: r =>
      match store16_mem (i * 8) (map (fun k => get_u16 a (i * 8 + k)) (seq 0 vl)) dst with
      | Some d => storeu_epi16_passes vl a r d
      | None => None
      end
  end.

Definition _mm512_storeu_epi16 (vlen : nat) (dst : list Z) (a : m512i) : option (list Z) :=
  storeu_epi16_passes (vsetvl vlen 16 1 8) a (seq 0 4) dst.

(** Load followed by store, as in [test_mm512_storeu_epi16]. *)
Definition loadu_storeu_epi16 (vlen : nat) (buf buffer dst : list Z) : option (list Z) :=
  match _mm512_loadu_epi16 vlen buf buffer with
  | Some v => _mm512_storeu_epi16 vlen dst v
  | None => None
  end.

(** Fixed-width reference for [_mm512_loadu_epi8]: byte [j] is [mem[j]]. *)
Definition ref_loadu_epi8 (mem : list Z) : m512i := map (fun j => nth j mem 0 mod 256) (seq 0 64).

(** * Conformance harness (src/tests/avx_impl.cpp, src/tests/main.cpp) *)

Inductive result_t := TEST_SUCCESS | TEST_FAIL | TEST_UNIMPL.

Definition is_fail (r : result_t) : bool :=
  match r with TEST_FAIL => true | _ => false end.

Definition MAX_TEST_VALUE : nat := 10000.

(** ** SplitMix64 and test-vector generation

    The process-wide [static uint64_t state] is threaded by a small state
    monad. *)

Module Rng.

Definition St (A : Type) : Type := Z -> A * Z.
Definition ret {A} (x : A) : St A := fun s => (x, s).
Definition bind {A B} (m : St A) (f : A -> St B) : St B :=
  fun s => let '(x, s') := m s in f x s'.
Definition put (s : Z) : St unit := fun _ => (tt, s).

Notation "x <- m ;; k" := (bind m (fun x => k)) (at level 61, m at next level, right associativity).
Notation "m ;;; k" := (bind m (fun _ => k)) (at level 61, right associativity).

Definition u64 (z : Z) : Z := z mod 2 ^ 64.

(** [next()] up to its final conversion to [double]: the 64-bit value
    [z ^ (z >> 31)]. *)
Definition next : St Z := fun state =>
  let state := u64 (state + 11400714819323198485) in
  let z := state in
  let z := u64 (Z.lxor z (Z.shiftr z 30) * 13787848793156543929) in
  let z := u64 (Z.lxor z (Z.shiftr z 27) * 10723151780598845931) in
  (Z.lxor z (Z.shiftr z 31), state).

Section Generation.

(** The floating-point pipelines [(float)(next() / TWOPOWER64 * 200000.0 -
    100000.0)] and [(int32_t)(next() / TWOPOWER64 * 200000.0 - 100000.0)]
    are fixed functions of the 64-bit output of [next]; floating point is
    not modelled bit for bit. *)
Variable F : Type.
Variable to_test_float : Z -> F.
Variable to_test_int : Z -> Z.

(** The loop [for (i = 0; i < n; i++)] of the constructor, from index [i]. *)
Fixpoint gen_loop (n : nat) : St (list F * list Z) :=
  match n with
  | O => ret ([], [])
  | S n' =>
      zf <- next ;;
      zi <- next ;;
      rest <- gen_loop n' ;;
      ret (to_test_float zf :: fst rest, to_test_int zi :: snd rest)
  end.

(** [AVX2RVV_TEST_IMPL::AVX2RVV_TEST_IMPL]: [AVX2RVV_INIT_RNG(123456)] then
    the generation loop; yields [test_cases_floats] and [test_cases_ints]. *)
Definition construct : St (list F * list Z) :=
  put 123456 ;;; gen_loop MAX_TEST_VALUE.

End Generation.

End Rng.

(** ** The per-operation loop *)

Section RunTest.

(** [load_test_float_pointers(i)], [load_test_int_pointers(i)] and
    [run_single_test(test, i)] for the operation under test. *)
Variable load_float : nat -> result_t.
Variable load_int : nat -> result_t.
Variable single : nat -> result_t.

(** The outcome of window [i]: what [ret] holds when the body of the loop
    finishes or breaks at [i]. *)
Definition window_result (i : nat) : result_t :=
  if is_fail (load_float i) then TEST_FAIL
  else if is_fail (load_int i) then TEST_FAIL
  else single i.

(** Trace of one run: final [ret], windows entered, windows whose test body
    [run_single_test] was invoked. *)
Record run := { run_ret : result_t; run_windows : list nat; run_bodies : list nat }.

(** [for (uint32_t i = ...; i < ...; i++)] with the three [break]s; [n]
    windows remain, starting at [i], [ret] is the value before them. *)
Fixpoint run_loop (n i : nat) (ret : result_t) : run :=
  match n with
  | O => {| run_ret := ret; run_windows := []; run_bodies := [] |}
  | S n' =>
      let r := load_float i in
      if is_fail r then {| run_ret := r; run_windows := [i]; run_bodies := [] |} else
      let r := load_int i in
      if is_fail r then {| run_ret := r; run_windows := [i]; run_bodies := [] |} else
      let r := single i in
      if is_fail r then {| run_ret := r; run_windows := [i]; run_bodies := [i] |} else
      let rest := run_loop n' (S i) r in
      {| run_ret := run_ret rest; run_windows := i :: run_windows rest;
         run_bodies := i :: run_bodies rest |}
  end.

(** [AVX2RVV_TEST_IMPL::run_test]. *)
Definition run_test : run := run_loop (MAX_TEST_VALUE - 8) 0 TEST_SUCCESS.

(** The first failing window among [0 .. MAX_TEST_VALUE - 9]. *)
Definition first_failing_window : option nat :=
  find (fun i => is_fail (window_result i)) (seq 0 (MAX_TEST_VALUE - 8)).

End RunTest.

(** ** The driver [main] (src/tests/main.cpp)

    Argument parsing is not modelled: [main] starts from the parsed
    [TestOptions].  [TestType::create()] is a [new], which never yields a
    null pointer, so creating an instance always succeeds. *)

From Stdlib Require String Ascii.


Inductive TestSuite := SSE | AVX | ALL.

Record TestOptions := {
  show_help : bool;
  list_tests : bool;
  verbose_output : bool;
  quiet_output : bool;
  target_test_name : String.string;
  target_test_index : Z;
  run_all_tests : bool;
  target_suite : TestSuite
}.

Inductive exit_status := EXIT_SUCCESS | EXIT_FAILURE.

(** [std::tolower] on an [unsigned char] in the C locale. *)
Definition ascii_tolower (c : Ascii.ascii) : Ascii.ascii :=
  let n := Ascii.nat_of_ascii c in
  if (65 <=? n)%nat && (n <=? 90)%nat then Ascii.ascii_of_nat (n + 32) else c.

Fixpoint to_lower (s : String.string) : String.string :=
  match s with
  | String.EmptyString => String.EmptyString
  | String.String c s' => String.String (ascii_tolower c) (to_lower s')
  end.

(** [s.find(pat) != std::string::npos]. *)
Fixpoint str_contains (pat s : String.string) : bool :=
  String.prefix pat s ||
  match s with String.EmptyString => false | String.String _ s' => str_contains pat s' end.

Section Driver.

(** The operation catalogues ([it_last], [instruction_string]) and the
    outcome of [run_test] for each suite and index. *)
Variable suite_count : TestSuite -> nat.
Variable suite_test_name : TestSuite -> nat -> String.string.
Variable run_one : TestSuite -> nat -> result_t.

Definition get_single_suite_test_count (s : TestSuite) : nat :=
  match s with SSE | AVX => suite_count s | ALL => 0 end.

(** [max_index = count - 1] is computed in [uint32_t]. *)
Definition is_valid_single_suite_index (s : TestSuite) (idx : Z) : bool :=
  if idx <? 0 then false
  else idx <=? (Z.of_nat (get_single_suite_test_count s) - 1) mod 2 ^ 32.

Definition find_single_suite_matching_tests (s : TestSuite) (pat : String.string) : list nat :=
  let lp := to_lower pat in
  filter (fun i => str_contains lp (to_lower (suite_test_name s i)))
         (seq 0 (get_single_suite_test_count s)).

(** Tallies [(pass, fail, skip)] and the tests run, in order. *)
Record tally := { t_pass : nat; t_fail : nat; t_skip : nat; t_ran : list (TestSuite * nat) }.

Definition tally0 : tally := {| t_pass := 0; t_fail := 0; t_skip := 0; t_ran := [] |}.

Definition count_result (s : TestSuite) (idx : nat) (t : tally) : tally :=
  let ran := t_ran t ++ [(s, idx)] in
  match run_one s idx with
  | TEST_SUCCESS => {| t_pass := S (t_pass t); t_fail := t_fail t; t_skip := t_skip t; t_ran := ran |}
  | TEST_FAIL => {| t_pass := t_pass t; t_fail := S (t_fail t); t_skip := t_skip t; t_ran := ran |}
  | TEST_UNIMPL => {| t_pass := t_pass t; t_fail := t_fail t; t_skip := S (t_skip t); t_ran := ran |}
  end.

(** [run_single_suite_tests]: [None] is its [return false]. *)
Definition run_single_suite_tests (s : TestSuite) (idxs : list nat) : option tally :=
  match s with
  | ALL => None
  | _ => Some (fold_left (fun t i => count_result s i t) idxs tally0)
  end.

Definition add_tally (a b : tally) : tally :=
  {| t_pass := t_pass a + t_pass b; t_fail := t_fail a + t_fail b;
     t_skip := t_skip a + t_skip b; t_ran := t_ran a ++ t_ran b |}.

(** The selection of one suite inside [run_all_suites_tests]; [None] is a
    [continue]. *)
Definition all_suites_selection (run_all : bool) (idx : Z) (name : String.string) (s : TestSuite)
  : option (list nat) :=
  if run_all then Some (seq 0 (get_single_suite_test_count s))
  else if 0 <=? idx then
    if is_valid_single_suite_index s idx then Some [Z.to_nat idx] else None
  else if negb (String.eqb name String.EmptyString) then
    match find_single_suite_matching_tests s name with
    | [] => None
    | l => Some l
    end
  else Some [].

(** One iteration of the suite loop of [run_all_suites_tests]; [None] is its
    [return false]. *)
Definition all_suites_step (run_all : bool) (idx : Z) (name : String.string)
  (acc : option tally) (s : TestSuite) : option tally :=
  match acc with
  | None => None
  | Some t =>
      match all_suites_selection run_all idx name s with
      | None => Some t
      | Some [] => Some t
      | Some l =>
          match run_single_suite_tests s l with
          | Some u => Some (add_tally t u)
          | None => None
          end
      end
  end.

Definition run_all_suites_tests (run_all : bool) (idx : Z) (name : String.string) : option tally :=
  fold_left (all_suites_step run_all idx name) [SSE; AVX] (Some tally0).

(** The [test_indices] selection of [main] for a single suite; [None] is
    one of its early [return EXIT_FAILURE]s (index out of range, no name
    matched). *)
Definition single_suite_selection (o : TestOptions) (s : TestSuite) : option (list nat) :=
  if run_all_tests o then Some (seq 0 (get_single_suite_test_count s))
  else if 0 <=? target_test_index o then
    if is_valid_single_suite_index s (target_test_index o)
    then Some [Z.to_nat (target_test_index o)] else None
  else if negb (String.eqb (target_test_name o) String.EmptyString) then
    match find_single_suite_matching_tests s (target_test_name o) with
    | [] => None
    | l => Some l
    end
  else Some [].

(** The running part of [main]: [None] when it returns before running,
    otherwise [run_success] with the tallies. *)
Definition run_phase (o : TestOptions) : option (option tally) :=
  match target_suite o with
  | ALL => Some (run_all_suites_tests (run_all_tests o) (target_test_index o)
                                      (target_test_name o))
  | s =>
      match single_suite_selection o s with
      | None => None
      | Some l => Some (run_single_suite_tests s l)
      end
  end.

(** [main]: the exit status, and the tally when the tests were run
    ([None] when [main] returned before running any). *)
Definition main (o : TestOptions) : exit_status * option tally :=
  if show_help o then (EXIT_SUCCESS, None)
  else if list_tests o then (EXIT_SUCCESS, None)
  else
    match run_phase o with
    | None => (EXIT_FAILURE, None)
    | Some None => (EXIT_FAILURE, None)
    | Some (Some t) => (if (0 <? t_fail t)%nat then EXIT_FAILURE else EXIT_SUCCESS, Some t)
    end.

End Driver.

(** ** Further operations of the emulation layer *)

(** Signed 16-bit element-wise operations: the RVV result is the low 16
    bits of the exact result, read as [int16_t]. *)
Definition wrap16 (x : Z) : Z := to_i16 (x mod 65536).

Definition vadd_i16 (xs ys : list Z) : list Z :=
  map (fun p => wrap16 (fst p + snd p)) (combine xs ys).
Definition vsub_i16 (xs ys : list Z) : list Z :=
  map (fun p => wrap16 (fst p - snd p)) (combine xs ys).
(** [vmin] / [vmax] compare signed elements, [vmaxu] unsigned ones. *)
Definition vmin_i16 (xs ys : list Z) : list Z :=
  map (fun p => Z.min (fst p) (snd p)) (combine xs ys).
Definition vmax_i16 (xs ys : list Z) : list Z :=
  map (fun p => Z.max (fst p) (snd p)) (combine xs ys).
Definition vmaxu (xs ys : list Z) : list Z :=
  map (fun p => Z.max (fst p) (snd p)) (combine xs ys).

Definition _mm512_add_epi16 (vlen : nat) (a b junk : m512i) : m512i :=
  let vl := vsetvl vlen 16 4 32 in
  let va := vle16_i16 vl a in
  let vb := vle16_i16 vl b in
  let vr := vadd_i16 va vb in
  vse16 vl vr junk.

Definition _mm512_sub_epi16 (vlen : nat) (a b junk : m512i) : m512i :=
  let vl := vsetvl vlen 16 8 32 in
  let va := vle16_i16 vl a in
  let vb := vle16_i16 vl b in
  let vsub := vsub_i16 va vb in
  vse16 vl vsub junk.

Definition _mm512_min_epi16 (vlen : nat) (a b junk : m512i) : m512i :=
  let vl := vsetvl vlen 16 8 32 in
  let va := vle16_i16 vl a in
  let vb := vle16_i16 vl b in
  let vmin := vmin_i16 va vb in
  vse16 vl vmin junk.

Definition _mm512_max_epi16 (vlen : nat) (a b junk : m512i) : m512i :=
  let vl := vsetvl vlen 16 8 32 in
  let va := vle16_i16 vl a in
  let vb := vle16_i16 vl b in
  let vmax := vmax_i16 va vb in
  vse16 vl vmax junk.

Definition _mm512_min_epu16 (vlen : nat) (a b junk : m512i) : m512i :=
  let vl := vsetvl vlen 16 8 32 in
  let va := vle16 vl a in
  let vb := vle16 vl b in
  let vmin := vminu va vb in
  vse16 vl vmin junk.

Definition _mm512_max_epu16 (vlen : nat) (a b junk : m512i) : m512i :=
  let vl := vsetvl vlen 16 8 32 in
  let va := vle16 vl a in
  let vb := vle16 vl b in
  let vmax := vmaxu va vb in
  vse16 vl vmax junk.

Definition _mm512_setzero_si512 (vlen : nat) (junk : m512i) : m512i :=
  let vl := vsetvl vlen 8 8 64 in
  let zero_vec := vmv_v_x vl 0 in
  vse8 vl zero_vec junk.

(** 64-bit elements.  A [vle64] element is the little-endian number formed
    by eight consecutive bytes; [vse64] writes its eight bytes back.  The
    [i64] view is signed, but [vle64] / [vse64] only move bits, so the
    unsigned reading is used. *)
Fixpoint le_bytes (bs : list Z) : Z :=
  match bs with
  | [] => 0
  | b :: r => b + 256 * le_bytes r
  end.

Definition get_u64 (v : list Z) (i : nat) : Z := le_bytes (map (get_u8 v) (seq (8 * i) 8)).

Definition vle64 (vl : nat) (v : list Z) : list Z := map (get_u64 v) (seq 0 vl).

(** Byte [j] of the 64-bit element that covers it. *)
Definition byte64_of (x : Z) (j : nat) : Z := (x / 2 ^ (8 * Z.of_nat (j mod 8))) mod 256.

(** [vse64] into a register. *)
Definition vse64 (vl : nat) (vals : list Z) (dst : m512i) : m512i :=
  map (fun j => if (j <? 8 * vl)%nat then byte64_of (nth (j / 8) vals 0) j else nth j dst 0)
      (seq 0 64).

(** [vse64(dst, vals, length vals)] into a memory object. *)
Definition store64_mem (vals : list Z) (dst : list Z) : option (list Z) :=
  if (8 * length vals <=? length dst)%nat then
    Some (map (fun j => if (j <? 8 * length vals)%nat then byte64_of (nth (j / 8) vals 0) j
                        else nth j dst 0)
              (seq 0 (length dst)))
  else None.

Definition _mm512_loadu_si512 (vlen : nat) (mem : list Z) (junk : m512i) : option m512i :=
  let vl := vsetvl vlen 64 8 8 in
  if (8 * vl <=? length mem)%nat then
    let vec := vle64 vl mem in
    Some (vse64 vl vec junk)
  else None.

Definition _mm512_storeu_si512 (vlen : nat) (dst : list Z) (a : m512i) : option (list Z) :=
  let vl := vsetvl vlen 64 8 8 in
  store64_mem (vle64 vl a) dst.

(** * Test bodies of the AVX suite (src/tests/avx_impl.cpp), RISC-V build

    [None] is undefined behaviour (an out-of-bounds access) or a failed
    [assert]. *)

(** A 64-byte local ([int16_t result[32]], [uint8_t result[64]], ...)
    left uninitialised: its bytes are those of [junk]. *)
Definition local64 (junk : list Z) : list Z := map (fun j => nth j junk 0) (seq 0 64).

(** [get_epi16] / [get_epu16]: [_mm512_storeu_si512] into a local array,
    then element [index]. *)
Definition get_epi16 (vlen : nat) (a : m512i) (index : nat) (junk : list Z) : option Z :=
  if (index <? 32)%nat then
    match _mm512_storeu_si512 vlen (local64 junk) a with
    | Some result => Some (get_i16 result index)
    | None => None
    end
  else None.

Definition get_epu16 (vlen : nat) (a : m512i) (index : nat) (junk : list Z) : option Z :=
  if (index <? 32)%nat then
    match _mm512_storeu_si512 vlen (local64 junk) a with
    | Some result => Some (get_u16 result index)
    | None => None
    end
  else None.

(** The object representation of an [int16_t] / [uint16_t] array. *)
Definition array16 (xs : list Z) : list Z :=
  map (fun j => byte_of (nth (j / 2) xs 0) j) (seq 0 (2 * length xs)).

(** [(int16_t)(iter + k)] and [(uint16_t)(iter + k)] for [uint32_t iter]. *)
Definition iter_i16 (iter k : Z) : Z := to_i16 ((iter + k) mod 2 ^ 32 mod 65536).
Definition iter_u16 (iter k : Z) : Z := (iter + k) mod 2 ^ 32 mod 65536.

(** The 32 values [f(iter + i)], [i = 0 .. 31], of a test array. *)
Definition test_array (f : Z -> Z -> Z) (iter k : Z) : list Z :=
  map (fun i => f iter (Z.of_nat i + k)) (seq 0 32).

(** [for (int i = 0; i < 32; i++) if (got(i) != expected[i]) return
    TEST_FAIL; return TEST_SUCCESS;] *)
Fixpoint check_lanes (got : nat -> option Z) (expected : nat -> Z) (is : list nat)
  : option result_t :=
  match is with
  | [] => Some TEST_SUCCESS
  | i :: r =>
      match got i with
      | None => None
      | Some g => if g =? expected i then check_lanes got expected r else Some TEST_FAIL
      end
  end.

(** The shape shared by the two-operand tests: load [a_data] and [b_data]
    with [_mm512_loadu_epi16] (into the locals [ja], [jb]), apply [op], and
    compare each lane read back with [get] (its local [jg i]). *)
Definition binop_test16 (vlen : nat) (op : m512i -> m512i -> m512i)
  (get : nat -> m512i -> nat -> list Z -> option Z)
  (a_data b_data : list Z) (expected : nat -> Z)
  (ja jb : m512i) (jg : nat -> list Z) : option result_t :=
  match _mm512_loadu_epi16 vlen (array16 a_data) ja with
  | None => None
  | Some a =>
      match _mm512_loadu_epi16 vlen (array16 b_data) jb with
      | None => None
      | Some b =>
          let ret := op a b in
          check_lanes (fun i => get vlen ret i (jg i)) expected (seq 0 32)
      end
  end.

Definition test_mm512_add_epi16 (vlen : nat) (iter : Z) (ja jb jr : m512i) (jg : nat -> list Z)
  : option result_t :=
  let a_data := test_array iter_i16 iter 0 in
  let b_data := test_array iter_i16 iter 1 in
  let expected i := wrap16 (nth i a_data 0 + nth i b_data 0) in
  binop_test16 vlen (fun a b => _mm512_add_epi16 vlen a b jr) get_epi16
               a_data b_data expected ja jb jg.

Definition test_mm512_sub_epi16 (vlen : nat) (iter : Z) (ja jb jr : m512i) (jg : nat -> list Z)
  : option result_t :=
  let a_data := test_array iter_i16 iter 0 in
  let b_data := test_array iter_i16 iter 1 in
  let expected i := wrap16 (nth i a_data 0 - nth i b_data 0) in
  binop_test16 vlen (fun a b => _mm512_sub_epi16 vlen a b jr) get_epi16
               a_data b_data expected ja jb jg.

(** [expected[i] = (uint16_t)((a_data[i] + b_data[i] + 1) >> 1)]. *)
Definition test_mm512_avg_epu16 (vlen : nat) (iter : Z) (ja jb jr : m512i) (jg : nat -> list Z)
  : option result_t :=
  let a_data := test_array iter_u16 iter 0 in
  let b_data := test_array iter_u16 iter 1 in
  let expected i := Z.shiftr (nth i a_data 0 + nth i b_data 0 + 1) 1 mod 65536 in
  binop_test16 vlen (fun a b => _mm512_avg_epu16 vlen a b jr) get_epu16
               a_data b_data expected ja jb jg.

Definition test_mm512_min_epi16 (vlen : nat) (iter : Z) (ja jb jr : m512i) (jg : nat -> list Z)
  : option result_t :=
  let a_data := test_array iter_i16 iter 0 in
  let b_data := test_array iter_i16 iter 5 in
  let expected i := if nth i a_data 0 <? nth i b_data 0 then nth i a_data 0 else nth i b_data 0 in
  binop_test16 vlen (fun a b => _mm512_min_epi16 vlen a b jr) get_epi16
               a_data b_data expected ja jb jg.

Definition test_mm512_max_epi16 (vlen : nat) (iter : Z) (ja jb jr : m512i) (jg : nat -> list Z)
  : option result_t :=
  let a_data := test_array iter_i16 iter 0 in
  let b_data := test_array iter_i16 iter 5 in
  let expected i := if nth i b_data 0 <? nth i a_data 0 then nth i a_data 0 else nth i b_data 0 in
  binop_test16 vlen (fun a b => _mm512_max_epi16 vlen a b jr) get_epi16
               a_data b_data expected ja jb jg.

Definition test_mm512_min_epu16 (vlen : nat) (iter : Z) (ja jb jr : m512i) (jg : nat -> list Z)
  : option result_t :=
  let a_data := test_array iter_u16 iter 0 in
  let b_data := test_array iter_u16 iter 5 in
  let expected i := if nth i a_data 0 <? nth i b_data 0 then nth i a_data 0 else nth i b_data 0 in
  binop_test16 vlen (fun a b => _mm512_min_epu16 vlen a b jr) get_epu16
               a_data b_data expected ja jb jg.

Definition test_mm512_max_epu16 (vlen : nat) (iter : Z) (ja jb jr : m512i) (jg : nat -> list Z)
  : option result_t :=
  let a_data := test_array iter_u16 iter 0 in
  let b_data := test_array iter_u16 iter 5 in
  let expected i := if nth i b_data 0 <? nth i a_data 0 then nth i a_data 0 else nth i b_data 0 in
  binop_test16 vlen (fun a b => _mm512_max_epu16 vlen a b jr) get_epu16
               a_data b_data expected ja jb jg.

(** The two mask tests: [if (ret != 0xFFFFFFFF) return TEST_FAIL;]. *)
Definition mask_test16 (vlen : nat) (cmp : m512i -> m512i -> Z) (a_data b_data : list Z)
  (ja jb : m512i) : option result_t :=
  match _mm512_loadu_epi16 vlen (array16 a_data) ja with
  | None => None
  | Some a =>
      match _mm512_loadu_epi16 vlen (array16 b_data) jb with
      | None => None
      | Some b =>
          let ret := cmp a b in
          Some (if negb (ret =? 4294967295) then TEST_FAIL else TEST_SUCCESS)
      end
  end.

Definition test_mm512_cmpeq_epi16_mask (vlen : nat) (iter : Z) (ja jb : m512i) : option result_t :=
  mask_test16 vlen (_mm512_cmpeq_epi16_mask vlen)
              (test_array iter_i16 iter 0) (test_array iter_i16 iter 0) ja jb.

Definition test_mm512_cmpgt_epi16_mask (vlen : nat) (iter : Z) (ja jb : m512i) : option result_t :=
  mask_test16 vlen (_mm512_cmpgt_epi16_mask vlen)
              (test_array iter_i16 iter 10) (test_array iter_i16 iter 0) ja jb.

Definition test_mm512_loadu_epi16 (vlen : nat) (iter : Z) (jl : m512i) (jg : nat -> list Z)
  : option result_t :=
  let test_data := test_array iter_i16 iter 0 in
  match _mm512_loadu_epi16 vlen (array16 test_data) jl with
  | None => None
  | Some ret => check_lanes (fun i => get_epi16 vlen ret i (jg i)) (fun i => nth i test_data 0)
                            (seq 0 32)
  end.

(** [result_data] is an uninitialised [int16_t[32]] ([local64 jd]). *)
Definition test_mm512_storeu_epi16 (vlen : nat) (iter : Z) (jl : m512i) (jd : list Z)
  : option result_t :=
  let test_data := test_array iter_i16 iter 0 in
  match _mm512_loadu_epi16 vlen (array16 test_data) jl with
  | None => None
  | Some src =>
      match _mm512_storeu_epi16 vlen (local64 jd) src with
      | None => None
      | Some result_data =>
          check_lanes (fun i => Some (get_i16 result_data i)) (fun i => nth i test_data 0)
                      (seq 0 32)
      end
  end.

(** ** [parse_arguments] *)

Import String.StringSyntax Ascii.AsciiSyntax.

(** The command-line arguments [argv[1..]] are Rocq strings; being C
    strings, they hold no NUL character. *)

(** The field values of a default-constructed [TestOptions]. *)
Definition default_options : TestOptions :=
  {| show_help := false; list_tests := false; verbose_output := false; quiet_output := false;
     target_test_name := String.EmptyString; target_test_index := -1;
     run_all_tests := true; target_suite := ALL |}.

Definition set_show_help (o : TestOptions) : TestOptions :=
  {| show_help := true; list_tests := list_tests o; verbose_output := verbose_output o;
     quiet_output := quiet_output o; target_test_name := target_test_name o;
     target_test_index := target_test_index o; run_all_tests := run_all_tests o;
     target_suite := target_suite o |}.

Definition set_list_tests (o : TestOptions) : TestOptions :=
  {| show_help := show_help o; list_tests := true; verbose_output := verbose_output o;
     quiet_output := quiet_output o; target_test_name := target_test_name o;
     target_test_index := target_test_index o; run_all_tests := run_all_tests o;
     target_suite := target_suite o |}.

Definition set_verbose (o : TestOptions) : TestOptions :=
  {| show_help := show_help o; list_tests := list_tests o; verbose_output := true;
     quiet_output := quiet_output o; target_test_name := target_test_name o;
     target_test_index := target_test_index o; run_all_tests := run_all_tests o;
     target_suite := target_suite o |}.

Definition set_quiet (o : TestOptions) : TestOptions :=
  {| show_help := show_help o; list_tests := list_tests o; verbose_output := verbose_output o;
     quiet_output := true; target_test_name := target_test_name o;
     target_test_index := target_test_index o; run_all_tests := run_all_tests o;
     target_suite := target_suite o |}.

(** [options.target_test_index = atoi(index_str); options.run_all_tests = false;] *)
Definition set_index (idx : Z) (o : TestOptions) : TestOptions :=
  {| show_help := show_help o; list_tests := list_tests o; verbose_output := verbose_output o;
     quiet_output := quiet_output o; target_test_name := target_test_name o;
     target_test_index := idx; run_all_tests := false; target_suite := target_suite o |}.

(** [options.target_test_name = arg; options.run_all_tests = false;] *)
Definition set_name (name : String.string) (o : TestOptions) : TestOptions :=
  {| show_help := show_help o; list_tests := list_tests o; verbose_output := verbose_output o;
     quiet_output := quiet_output o; target_test_name := name;
     target_test_index := target_test_index o; run_all_tests := false;
     target_suite := target_suite o |}.

Definition set_suite (s : TestSuite) (o : TestOptions) : TestOptions :=
  {| show_help := show_help o; list_tests := list_tests o; verbose_output := verbose_output o;
     quiet_output := quiet_output o; target_test_name := target_test_name o;
     target_test_index := target_test_index o; run_all_tests := run_all_tests o;
     target_suite := s |}.

Local Open Scope string_scope.

(** [str_to_test_suite]; [None] is its [return false]. *)
Definition str_to_test_suite (suite_str : String.string) : option TestSuite :=
  let lower_str := to_lower suite_str in
  if String.eqb lower_str "sse" then Some SSE
  else if String.eqb lower_str "avx" then Some AVX
  else if String.eqb lower_str "all" then Some ALL
  else None.

Definition is_digit (c : Ascii.ascii) : bool :=
  (48 <=? Ascii.nat_of_ascii c)%nat && (Ascii.nat_of_ascii c <=? 57)%nat.

(** [strspn(s, "0123456789") == strlen(s)]. *)
Fixpoint all_digits (s : String.string) : bool :=
  match s with
  | String.EmptyString => true
  | String.String c s' => is_digit c && all_digits s'
  end.

(** The decimal value of a digit string, most significant digit first. *)
Fixpoint decimal_value_acc (acc : Z) (s : String.string) : Z :=
  match s with
  | String.EmptyString => acc
  | String.String c s' =>
      decimal_value_acc (10 * acc + (Z.of_nat (Ascii.nat_of_ascii c) - 48)) s'
  end.

Definition decimal_value (s : String.string) : Z := decimal_value_acc 0 s.

Local Close Scope string_scope.
Local Open Scope char_scope.

(** [arg[0] != '-'] (for the empty string [arg[0]] is the terminating NUL). *)
Definition not_option (arg : String.string) : bool :=
  match arg with
  | String.EmptyString => true
  | String.String c _ => negb (Ascii.eqb c "-")
  end.

Local Close Scope char_scope.

(** The outcome of [parse_arguments]: the options, an [exit(EXIT_FAILURE)],
    or undefined behaviour ([atoi] of a value that does not fit an [int]). *)
Inductive parse_outcome := Parsed (o : TestOptions) | ParseExitFailure | ParseUndefined.

Local Open Scope string_scope.

(** The loop [for (int i = 1; i < argc; ++i)] of [parse_arguments] over the
    remaining arguments, with the options built so far. *)
Fixpoint parse_loop (args : list String.string) (o : TestOptions) : parse_outcome :=
  match args with
  | [] => Parsed o
  | arg :: rest =>
      if String.eqb arg "-i" || String.eqb arg "--index" then
        match rest with
        | [] => ParseExitFailure
        | index_str :: rest' =>
            if all_digits index_str then
              if decimal_value index_str <=? 2147483647
              then parse_loop rest' (set_index (decimal_value index_str) o)
              else ParseUndefined
            else ParseExitFailure
        end
      else if String.eqb arg "-s" || String.eqb arg "--suite" then
        match rest with
        | [] => ParseExitFailure
        | suite_str :: rest' =>
            match str_to_test_suite suite_str with
            | Some s => parse_loop rest' (set_suite s o)
            | None => ParseExitFailure
            end
        end
      else if String.eqb arg "-h" || String.eqb arg "--help" then
        parse_loop rest (set_show_help o)
      else if String.eqb arg "-l" || String.eqb arg "--list" then
        parse_loop rest (set_list_tests o)
      else if String.eqb arg "-v" || String.eqb arg "--verbose" then
        parse_loop rest (set_verbose o)
      else if String.eqb arg "-q" || String.eqb arg "--quiet" then
        parse_loop rest (set_quiet o)
      else if not_option arg then parse_loop rest (set_name arg o)
      else ParseExitFailure
  end.

Local Close Scope string_scope.

Definition parse_arguments (args : list String.string) : parse_outcome :=
  parse_loop args default_options.

(** The whole program on the arguments [argv[1..]]: [None] is undefined
    behaviour; an [exit(EXIT_FAILURE)] in [parse_arguments] ends it before
    any test runs. *)
Definition run_program (suite_count : TestSuite -> nat)
  (suite_test_name : TestSuite -> nat -> String.string) (run_one : TestSuite -> nat -> result_t)
  (args : list String.string) : option (exit_status * option tally) :=
  match parse_arguments args with
  | Parsed o => Some (main suite_count suite_test_name run_one o)
  | ParseExitFailure => Some (EXIT_FAILURE, None)
  | ParseUndefined => None
  end.

Local Open Scope string_scope.

(** The option spellings of [parse_arguments]. *)
Definition index_flags : list String.string := ["-i"; "--index"].
Definition suite_flags : list String.string := ["-s"; "--suite"].
Definition known_flags : list String.string :=
  ["-i"; "--index"; "-s"; "--suite"; "-h"; "--help"; "-l"; "--list";
   "-v"; "--verbose"; "-q"; "--quiet"].

Local Close Scope string_scope.

(** The number of tests a tally counts. *)
Definition tally_total (t : tally) : nat := (t_pass t + t_fail t + t_skip t)%nat.

Definition sel_or_nil (x : option (list nat)) : list nat :=
  match x with Some l => l | None => [] end.

(** The tests of suite [s] that the options select, as [print_help]
    describes them: all of them, the one at [--index] when the suite has it,
    or those whose name contains [TEST_NAME] (ignoring case). *)
Definition chosen_tests (suite_count : TestSuite -> nat)
  (suite_test_name : TestSuite -> nat -> String.string) (o : TestOptions) (s : TestSuite)
  : list nat :=
  if run_all_tests o then seq 0 (suite_count s)
  else if 0 <=? target_test_index o then
    if target_test_index o <? Z.of_nat (suite_count s) then [Z.to_nat (target_test_index o)] else []
  else if String.eqb (target_test_name o) String.EmptyString then []
  else find_single_suite_matching_tests suite_count suite_test_name s (target_test_name o).

(** What [parse_loop] keeps true of the options it builds. *)
Definition parse_inv (o : TestOptions) : Prop :=
  (target_test_index o = -1 \/ 0 <= target_test_index o <= 2147483647) /\
  (run_all_tests o = true -> target_test_index o = -1 /\ target_test_name o = String.EmptyString).

(** * Lane lemmas for the RVV model *)

Section LaneLemmas.

Lemma nth_map_seq {A} (f : nat -> A) (n j : nat) (d : A) :
  (j < n)%nat -> nth j (map f (seq 0 n)) d = f j.
Proof.
  intros Hj.
  rewrite nth_indep with (d' := f 0%nat) by (rewrite length_map, length_seq; exact Hj).
  rewrite map_nth, seq_nth by exact Hj. reflexivity.
Qed.

Lemma nth_map_lt {A B} (f : A -> B) (l : list A) (j : nat) (d : B) (d' : A) :
  (j < length l)%nat -> nth j (map f l) d = f (nth j l d').
Proof.
  intros Hj.
  rewrite nth_indep with (d' := f d') by (rewrite length_map; exact Hj).
  apply map_nth.
Qed.

Lemma length_vle16 vl v : length (vle16 vl v) = vl.
Proof. unfold vle16. rewrite length_map, length_seq. reflexivity. Qed.

Lemma length_vle16_i16 vl v : length (vle16_i16 vl v) = vl.
Proof. unfold vle16_i16. rewrite length_map, length_seq. reflexivity. Qed.

Lemma length_vle8 vl v : length (vle8 vl v) = vl.
Proof. unfold vle8. rewrite length_map, length_seq. reflexivity. Qed.

Lemma nth_vle16 vl v i : (i < vl)%nat -> nth i (vle16 vl v) 0 = get_u16 v i.
Proof. intros. unfold vle16. apply nth_map_seq. assumption. Qed.

Lemma nth_vle16_i16 vl v i : (i < vl)%nat -> nth i (vle16_i16 vl v) 0 = get_i16 v i.
Proof. intros. unfold vle16_i16. apply nth_map_seq. assumption. Qed.

Lemma nth_vle8 vl v i : (i < vl)%nat -> nth i (vle8 vl v) 0 = get_u8 v i.
Proof. intros. unfold vle8. apply nth_map_seq. assumption. Qed.

Lemma get_u8_range v j : 0 <= get_u8 v j < 256.
Proof. unfold get_u8. apply Z.mod_pos_bound. lia. Qed.

Lemma get_u16_range v i : 0 <= get_u16 v i < 65536.
Proof. unfold get_u16. pose proof (get_u8_range v (2 * i)). pose proof (get_u8_range v (2 * i + 1)). lia. Qed.

Lemma mod_65536_split x : x mod 256 + 256 * ((x / 256) mod 256) = x mod 65536.
Proof.
  apply Z.mod_unique with (q := x / 256 / 256).
  - left. pose proof (Z.mod_pos_bound x 256). pose proof (Z.mod_pos_bound (x / 256) 256). lia.
  - pose proof (Z.div_mod x 256). pose proof (Z.div_mod (x / 256) 256). lia.
Qed.

Lemma even_double i : Nat.even (2 * i) = true.
Proof. apply Nat.even_spec. exists i. reflexivity. Qed.

Lemma even_double_1 i : Nat.even (2 * i + 1) = false.
Proof. rewrite Nat.add_1_r, Nat.even_succ, <- Nat.negb_even, even_double. reflexivity. Qed.

Lemma div2_double i : (2 * i / 2 = i)%nat.
Proof. rewrite Nat.mul_comm. apply Nat.div_mul. lia. Qed.

Lemma div2_double_1 i : ((2 * i + 1) / 2 = i)%nat.
Proof. rewrite Nat.mul_comm, Nat.div_add_l by lia. simpl. lia. Qed.

(** Lane [i] of a [vse16] store is element [i], reduced to 16 bits. *)
Lemma get_u16_vse16 vl vals dst i :
  (i < vl)%nat -> (i < 32)%nat -> get_u16 (vse16 vl vals dst) i = nth i vals 0 mod 65536.
Proof.
  intros Hvl H32. unfold get_u16, get_u8, vse16.
  rewrite !nth_map_seq by lia.
  replace ((2 * i) <? 2 * vl)%nat with true by (symmetry; apply Nat.ltb_lt; lia).
  replace ((2 * i + 1) <? 2 * vl)%nat with true by (symmetry; apply Nat.ltb_lt; lia).
  unfold byte_of. rewrite even_double, even_double_1, div2_double, div2_double_1, !Z.mod_mod by lia.
  apply mod_65536_split.
Qed.

(** Byte [j] of a [vse8] store is element [j], reduced to 8 bits. *)
Lemma get_u8_vse8 vl vals dst j :
  (j < vl)%nat -> (j < 64)%nat -> get_u8 (vse8 vl vals dst) j = nth j vals 0 mod 256.
Proof.
  intros Hvl H64. unfold get_u8, vse8.
  rewrite nth_map_seq by lia.
  replace (j <? vl)%nat with true by (symmetry; apply Nat.ltb_lt; lia).
  apply Z.mod_mod. lia.
Qed.

Lemma nth_combine_same {A B} (xs : list A) (ys : list B) i dx dy :
  length xs = length ys -> nth i (combine xs ys) (dx, dy) = (nth i xs dx, nth i ys dy).
Proof. intros. apply combine_nth. assumption. Qed.

(** Element [i] of a binary element-wise operation. *)
Lemma nth_map_combine {B} (f : Z * Z -> B) xs ys i d :
  length xs = length ys -> (i < length xs)%nat ->
  nth i (map f (combine xs ys)) d = f (nth i xs 0, nth i ys 0).
Proof.
  intros Hl Hi.
  rewrite (nth_map_lt f _ _ d (0, 0)) by (rewrite length_combine; lia).
  rewrite nth_combine_same by assumption. reflexivity.
Qed.

End LaneLemmas.

(** [vsetvl] when the hardware can hold the requested length. *)
Lemma vsetvl_fits vlen sew lmul avl :
  (avl <= vlmax vlen sew lmul)%nat -> vsetvl vlen sew lmul avl = avl.
Proof. unfold vsetvl. lia. Qed.

Lemma vlmax_e16m8 vlen : (64 <= vlen)%nat -> (32 <= vlmax vlen 16 8)%nat.
Proof. intros. unfold vlmax. apply Nat.div_le_lower_bound; lia. Qed.

Lemma vlmax_e8m8 vlen : (64 <= vlen)%nat -> (64 <= vlmax vlen 8 8)%nat.
Proof. intros. unfold vlmax. apply Nat.div_le_lower_bound; lia. Qed.

Lemma vlmax_e16m4 vlen : (128 <= vlen)%nat -> (32 <= vlmax vlen 16 4)%nat.
Proof. intros. unfold vlmax. apply Nat.div_le_lower_bound; lia. Qed.

(** * Averaging: _mm512_avg_epu16 *)

(** What the code computes in lane [i]: the 16-bit sum [a + b], plus one,
    again in 16 bits, shifted right once. *)
Lemma avg_epu16_lane vlen a b junk i :
  (64 <= vlen)%nat -> (i < 32)%nat ->
  get_u16 (_mm512_avg_epu16 vlen a b junk) i =
  Z.shiftr (((get_u16 a i + get_u16 b i) mod 65536 + 1) mod 65536) 1.
Proof.
  intros Hv Hi. unfold _mm512_avg_epu16.
  rewrite vsetvl_fits by (apply vlmax_e16m8; exact Hv).
  rewrite get_u16_vse16 by lia.
  unfold vsrl_vx_u16, vadd_u16, vmv_v_x.
  rewrite (nth_map_lt _ _ _ 0 0)
    by (rewrite length_map, length_combine, length_map, length_combine,
               !length_vle16, repeat_length; lia).
  rewrite nth_map_combine
    by (rewrite ?length_map, ?length_combine, ?length_vle16, ?repeat_length; lia).
  rewrite nth_map_combine by (rewrite ?length_vle16; lia).
  rewrite !nth_vle16, nth_repeat_lt by lia. simpl fst; simpl snd.
  rewrite Z.mod_small; [reflexivity|].
  rewrite Z.shiftr_div_pow2 by lia.
  pose proof (Z.mod_pos_bound ((get_u16 a i + get_u16 b i) mod 65536 + 1) 65536).
  split; [apply Z.div_pos | apply Z.div_lt_upper_bound]; lia.
Qed.

(** The rule is met when no 16-bit wrap-around occurs, as for the inputs
    of [test_mm512_avg_epu16] ([b[i] = a[i] + 1], both small). *)
Lemma avg_epu16_lane_no_wrap vlen a b junk i :
  (64 <= vlen)%nat -> (i < 32)%nat -> get_u16 a i + get_u16 b i + 1 < 65536 ->
  get_u16 (_mm512_avg_epu16 vlen a b junk) i = Z.shiftr (get_u16 a i + get_u16 b i + 1) 1.
Proof.
  intros Hv Hi Hs. rewrite avg_epu16_lane by assumption.
  pose proof (get_u16_range a i). pose proof (get_u16_range b i).
  rewrite (Z.mod_small (get_u16 a i + get_u16 b i)) by lia.
  rewrite Z.mod_small by lia. reflexivity.
Qed.

(** C1 (code_bug): with every lane of [a] and [b] equal to [0xFFFF], lane 0
    of [_mm512_avg_epu16] on a VLEN = 128 machine is [0x7FFF], while the
    rounding average [(a[0] + b[0] + 1) >> 1] is [0xFFFF]. *)
Theorem avg_epu16_wraps_at_max :
  let a := repeat 255 64 in
  get_u16 (_mm512_avg_epu16 128 a a (repeat 0 64)) 0 = 32767 /\
  Z.shiftr (get_u16 a 0 + get_u16 a 0 + 1) 1 = 65535.
Proof. split; vm_compute; reflexivity. Qed.

(** * Rounding-mode translation *)

(** C9, counterexample: the input [5], which is none of the four
    [_MM_ROUND_*] codes, is mapped to [__riscv_frm_rdn], not to
    [__riscv_frm_rne]. *)
Lemma round_mode_5_not_default :
  ~ (forall aux_mode, 0 <= aux_mode < 256 ->
       aux_mode <> _MM_ROUND_TO_NEAREST_INT -> aux_mode <> _MM_ROUND_TO_NEG_INF ->
       aux_mode <> _MM_ROUND_TO_POS_INF -> aux_mode <> _MM_ROUND_TO_ZERO ->
       aux512_round_mode_to_rvv aux_mode = __riscv_frm_rne).
Proof.
  intros H. specialize (H 5).
  assert (aux512_round_mode_to_rvv 5 = __riscv_frm_rne) as E
    by (apply H; unfold _MM_ROUND_TO_NEAREST_INT, _MM_ROUND_TO_NEG_INF,
                   _MM_ROUND_TO_POS_INF, _MM_ROUND_TO_ZERO; lia).
  vm_compute in E. discriminate.
Qed.

(** C9, amended: the translation is total and reads only the low two bits
    of its input: [x mod 4 = 0, 1, 2, 3] gives [rne, rdn, rup, rtz]; the
    [default] branch is never taken. *)
Theorem round_mode_low_two_bits (aux_mode : Z) :
  aux512_round_mode_to_rvv aux_mode =
  match aux_mode mod 4 with
  | 0 => __riscv_frm_rne
  | 1 => __riscv_frm_rdn
  | 2 => __riscv_frm_rup
  | _ => __riscv_frm_rtz
  end.
Proof.
  unfold aux512_round_mode_to_rvv.
  change 3 with (Z.ones 2). rewrite Z.land_ones by lia. change (2 ^ 2) with 4.
  pose proof (Z.mod_pos_bound aux_mode 4).
  assert (aux_mode mod 4 = 0 \/ aux_mode mod 4 = 1 \/ aux_mode mod 4 = 2 \/ aux_mode mod 4 = 3)
    as Hc by lia.
  destruct Hc as [E | [E | [E | E]]]; rewrite E; reflexivity.
Qed.

(** * Masked unsigned minimum *)

Section MaskLemmas.

(** [(k & (1 << i)) != 0] tests bit [i] of [k]. *)
Lemma land_shiftl_bit (k : Z) (i : nat) :
  negb (Z.land k (Z.shiftl 1 (Z.of_nat i)) =? 0) = Z.testbit k (Z.of_nat i).
Proof.
  rewrite Z.shiftl_1_l.
  destruct (Z.testbit k (Z.of_nat i)) eqn:E.
  - destruct (Z.eqb_spec (Z.land k (2 ^ Z.of_nat i)) 0) as [H0 | H0]; [|reflexivity].
    exfalso.
    assert (Z.testbit (Z.land k (2 ^ Z.of_nat i)) (Z.of_nat i) = true) as T
      by (rewrite Z.land_spec, E, Z.pow2_bits_true by lia; reflexivity).
    rewrite H0, Z.testbit_0_l in T. discriminate.
  - replace (Z.land k (2 ^ Z.of_nat i)) with 0; [reflexivity|].
    apply Z.bits_inj'. intros m Hm.
    rewrite Z.testbit_0_l, Z.land_spec, Z.pow2_bits_eqb by lia.
    destruct (Z.eqb_spec (Z.of_nat i) m) as [<- | _].
    + rewrite E. reflexivity.
    + symmetry. apply andb_false_r.
Qed.

Lemma nth_vmerge op1 op2 mask i :
  length op1 = length op2 -> length op2 = length mask -> (i < length op1)%nat ->
  nth i (vmerge_vvm op1 op2 mask) 0 = if nth i mask false then nth i op2 0 else nth i op1 0.
Proof.
  intros H1 H2 Hi. unfold vmerge_vvm.
  rewrite (nth_map_lt _ _ _ 0 (0, (0, false))) by (rewrite !length_combine; lia).
  rewrite combine_nth by (rewrite length_combine; lia).
  rewrite combine_nth by lia. reflexivity.
Qed.

Lemma length_vminu xs ys : length xs = length ys -> length (vminu xs ys) = length xs.
Proof. intros. unfold vminu. rewrite length_map, length_combine. lia. Qed.

Lemma nth_vminu xs ys i :
  length xs = length ys -> (i < length xs)%nat ->
  nth i (vminu xs ys) 0 = Z.min (nth i xs 0) (nth i ys 0).
Proof. intros. unfold vminu. rewrite nth_map_combine by assumption. reflexivity. Qed.

Lemma length_mask16 k vl : (vl <= 32)%nat -> length (vmseq_vx (firstn vl (mask_arr16 k)) 65535) = vl.
Proof.
  intros. unfold vmseq_vx, mask_arr16.
  rewrite length_map, length_firstn, length_map, length_seq. lia.
Qed.

Lemma nth_mask16 k vl i :
  (i < vl)%nat -> (vl <= 32)%nat ->
  nth i (vmseq_vx (firstn vl (mask_arr16 k)) 65535) false = Z.testbit k (Z.of_nat i).
Proof.
  intros Hi Hvl. unfold vmseq_vx.
  rewrite (nth_map_lt _ _ _ false 0)
    by (unfold mask_arr16; rewrite length_firstn, length_map, length_seq; lia).
  rewrite nth_firstn. replace (i <? vl)%nat with true by (symmetry; apply Nat.ltb_lt; lia).
  unfold mask_arr16. rewrite nth_map_seq by lia. rewrite land_shiftl_bit.
  destruct (Z.testbit k (Z.of_nat i)); reflexivity.
Qed.

Lemma length_mask8 k vl : (vl <= 64)%nat -> length (vmseq_vx (firstn vl (mask_arr8 k)) 255) = vl.
Proof.
  intros. unfold vmseq_vx, mask_arr8.
  rewrite length_map, length_firstn, length_map, length_seq. lia.
Qed.

Lemma nth_mask8 k vl i :
  (i < vl)%nat -> (vl <= 64)%nat ->
  nth i (vmseq_vx (firstn vl (mask_arr8 k)) 255) false = Z.testbit k (Z.of_nat i).
Proof.
  intros Hi Hvl. unfold vmseq_vx.
  rewrite (nth_map_lt _ _ _ false 0)
    by (unfold mask_arr8; rewrite length_firstn, length_map, length_seq; lia).
  rewrite nth_firstn. replace (i <? vl)%nat with true by (symmetry; apply Nat.ltb_lt; lia).
  unfold mask_arr8. rewrite nth_map_seq by lia. rewrite land_shiftl_bit.
  destruct (Z.testbit k (Z.of_nat i)); reflexivity.
Qed.

End MaskLemmas.

Lemma mask_min_epu16_lane vlen src k a b junk i :
  (64 <= vlen)%nat -> (i < 32)%nat ->
  get_u16 (_mm512_mask_min_epu16 vlen src k a b junk) i =
  if Z.testbit k (Z.of_nat i) then Z.min (get_u16 a i) (get_u16 b i) else get_u16 src i.
Proof.
  intros Hv Hi. unfold _mm512_mask_min_epu16.
  rewrite vsetvl_fits by (apply vlmax_e16m8; exact Hv).
  rewrite get_u16_vse16 by lia.
  rewrite nth_vmerge
    by (rewrite ?length_vminu, ?length_mask16, ?length_vle16; rewrite ?length_vle16; lia).
  rewrite nth_mask16, nth_vminu by (rewrite ?length_vle16; lia).
  rewrite !nth_vle16 by lia.
  pose proof (get_u16_range a i). pose proof (get_u16_range b i). pose proof (get_u16_range src i).
  destruct (Z.testbit k (Z.of_nat i)); apply Z.mod_small; lia.
Qed.

Lemma mask_min_epu8_lane vlen src k a b junk j :
  (64 <= vlen)%nat -> (j < 64)%nat ->
  get_u8 (_mm512_mask_min_epu8 vlen src k a b junk) j =
  if Z.testbit k (Z.of_nat j) then Z.min (get_u8 a j) (get_u8 b j) else get_u8 src j.
Proof.
  intros Hv Hj. unfold _mm512_mask_min_epu8.
  rewrite vsetvl_fits by (apply vlmax_e8m8; exact Hv).
  rewrite get_u8_vse8 by lia.
  rewrite nth_vmerge
    by (rewrite ?length_vminu, ?length_mask8, ?length_vle8; rewrite ?length_vle8; lia).
  rewrite nth_mask8, nth_vminu by (rewrite ?length_vle8; lia).
  rewrite !nth_vle8 by lia.
  pose proof (get_u8_range a j). pose proof (get_u8_range b j). pose proof (get_u8_range src j).
  destruct (Z.testbit k (Z.of_nat j)); apply Z.mod_small; lia.
Qed.

(** C4: on a machine with the V extension ([VLEN >= 128]), for every [src],
    [k], [a], [b], lane [i] of [_mm512_mask_min_epu16] (32 lanes of 16 bits)
    and of [_mm512_mask_min_epu8] (64 lanes of 8 bits) is the unsigned
    minimum of [a[i]] and [b[i]] when bit [i] of [k] is set and [src[i]]
    when it is clear.  The uninitialised [dst] ([junk]) never shows. *)
Theorem mask_min_merges_src (vlen : nat) (Hv : (128 <= vlen)%nat) (src : m512i) (k : Z)
  (a b junk : m512i) :
  (forall i, (i < 32)%nat ->
     get_u16 (_mm512_mask_min_epu16 vlen src k a b junk) i =
     if Z.testbit k (Z.of_nat i) then Z.min (get_u16 a i) (get_u16 b i) else get_u16 src i) /\
  (forall i, (i < 64)%nat ->
     get_u8 (_mm512_mask_min_epu8 vlen src k a b junk) i =
     if Z.testbit k (Z.of_nat i) then Z.min (get_u8 a i) (get_u8 b i) else get_u8 src i).
Proof.
  split; intros i Hi.
  - apply mask_min_epu16_lane; lia.
  - apply mask_min_epu8_lane; lia.
Qed.

Definition ex_a : m512i := map (fun j => Z.of_nat j) (seq 0 64).
Definition ex_b : m512i := map (fun j => 200 - Z.of_nat j) (seq 0 64).
Definition ex_src : m512i := repeat 7 64.

Lemma mask_min_merges_src_witness :
  (128 <= 128)%nat /\
  get_u16 (_mm512_mask_min_epu16 128 ex_src 5 ex_a ex_b (repeat 0 64)) 2 =
  Z.min (get_u16 ex_a 2) (get_u16 ex_b 2) /\
  get_u8 (_mm512_mask_min_epu8 128 ex_src 5 ex_a ex_b (repeat 0 64)) 1 = get_u8 ex_src 1.
Proof.
  split; [lia|].
  destruct (mask_min_merges_src 128 (le_n 128) ex_src 5 ex_a ex_b (repeat 0 64)) as [H16 H8].
  split; [rewrite (H16 2%nat) by lia | rewrite (H8 1%nat) by lia]; reflexivity.
Defined.

(** * Comparison masks *)

Lemma bits_to_Z_all_true n : bits_to_Z (repeat true n) = 2 ^ Z.of_nat n - 1.
Proof.
  induction n as [|n IH]; [reflexivity|].
  cbn [repeat bits_to_Z]. rewrite IH, Nat2Z.inj_succ, Z.pow_succ_r by lia. lia.
Qed.

Lemma vsm_u32_all_true : vsm_u32 (repeat true 32) = 4294967295.
Proof. unfold vsm_u32. rewrite firstn_all2 by (rewrite repeat_length; lia).
  rewrite bits_to_Z_all_true. reflexivity. Qed.

(** A lane-wise comparison that holds in every lane is [repeat true]. *)
Lemma cmp_all_true (f : Z * Z -> bool) xs ys n :
  length xs = n -> length ys = n ->
  (forall i, (i < n)%nat -> f (nth i xs 0, nth i ys 0) = true) ->
  map f (combine xs ys) = repeat true n.
Proof.
  intros Hx Hy H. apply nth_ext with (d := false) (d' := true).
  - rewrite length_map, length_combine, repeat_length. lia.
  - intros i Hi. rewrite length_map, length_combine in Hi.
    rewrite nth_map_combine by lia. rewrite nth_repeat_lt by lia. apply H. lia.
Qed.

(** C5: on a machine with the V extension ([VLEN >= 128]), if every signed
    16-bit lane of [a] equals that of [b], [_mm512_cmpeq_epi16_mask a b] is
    [0xFFFFFFFF]; if every lane of [a] is greater (signed), so is
    [_mm512_cmpgt_epi16_mask a b]. *)
Theorem cmp_epi16_mask_all_ones (vlen : nat) (Hv : (128 <= vlen)%nat) (a b : m512i) :
  ((forall i, (i < 32)%nat -> get_i16 a i = get_i16 b i) ->
   _mm512_cmpeq_epi16_mask vlen a b = 4294967295) /\
  ((forall i, (i < 32)%nat -> get_i16 a i > get_i16 b i) ->
   _mm512_cmpgt_epi16_mask vlen a b = 4294967295).
Proof.
  unfold _mm512_cmpeq_epi16_mask, _mm512_cmpgt_epi16_mask.
  rewrite vsetvl_fits by (apply vlmax_e16m4; exact Hv).
  split; intros H; rewrite <- vsm_u32_all_true; f_equal;
    [unfold vmseq_vv | unfold vmslt_vv];
    apply cmp_all_true; rewrite ?length_vle16_i16; try reflexivity;
    intros i Hi; cbn [fst snd]; rewrite !nth_vle16_i16 by lia.
  - rewrite H by lia. apply Z.eqb_refl.
  - apply Z.ltb_lt. specialize (H i Hi). lia.
Qed.

Definition ex_c : m512i := map (fun j => if Nat.even j then 5 else 0) (seq 0 64).
Definition ex_d : m512i := map (fun j => if Nat.even j then 100 else 0) (seq 0 64).

Lemma cmp_epi16_mask_all_ones_witness :
  (128 <= 128)%nat /\
  _mm512_cmpeq_epi16_mask 128 ex_a ex_a = 4294967295 /\
  _mm512_cmpgt_epi16_mask 128 ex_d ex_c = 4294967295.
Proof.
  split; [lia|].
  destruct (cmp_epi16_mask_all_ones 128 (le_n 128) ex_a ex_a) as [Heq _].
  destruct (cmp_epi16_mask_all_ones 128 (le_n 128) ex_d ex_c) as [_ Hgt].
  split; [apply Heq; intros; reflexivity | apply Hgt]; intros i Hi.
  do 32 (destruct i as [|i]; [vm_compute; reflexivity|]); lia.
Defined.

(** * Width adaptation of the loads; load/store round trip *)

Section LoadStore.

Lemma byte_of_get_u16 v j : byte_of (get_u16 v (j / 2)) j = get_u8 v j.
Proof.
  unfold byte_of, get_u16.
  pose proof (get_u8_range v (2 * (j / 2))). pose proof (get_u8_range v (2 * (j / 2) + 1)).
  destruct (Nat.even j) eqn:E.
  - apply Nat.even_spec in E. destruct E as [m ->]. rewrite div2_double in *.
    rewrite (Z.mul_comm 256), Z.mod_add by lia. apply Z.mod_small. lia.
  - assert (Nat.odd j = true) as O by (rewrite <- Nat.negb_even, E; reflexivity).
    apply Nat.odd_spec in O. destruct O as [m ->]. rewrite div2_double_1 in *.
    rewrite (Z.mul_comm 256), Z.div_add by lia. rewrite Z.div_small by lia.
    apply Z.mod_small. lia.
Qed.

Lemma byte_of_range x j : 0 <= byte_of x j < 256.
Proof. unfold byte_of. destruct (Nat.even j); apply Z.mod_pos_bound; lia. Qed.

Lemma get_u8_vse16 vl vals dst j :
  (j < 2 * vl)%nat -> (j < 64)%nat -> get_u8 (vse16 vl vals dst) j = byte_of (nth (j / 2) vals 0) j.
Proof.
  intros H1 H2. unfold get_u8, vse16. rewrite nth_map_seq by lia.
  replace (j <? 2 * vl)%nat with true by (symmetry; apply Nat.ltb_lt; lia).
  apply Z.mod_small, byte_of_range.
Qed.

Lemma loadu_epi16_vlen128 buf junk :
  length buf = 64%nat -> _mm512_loadu_epi16 128 buf junk = Some (vse16 32 (vle16 32 buf) junk).
Proof. intros H. unfold _mm512_loadu_epi16. change (vlmax 128 16 4) with 32%nat. rewrite H. reflexivity. Qed.

Lemma loadu_epi16_bytes buf junk j :
  (j < 64)%nat -> get_u8 (vse16 32 (vle16 32 buf) junk) j = get_u8 buf j.
Proof.
  intros Hj. rewrite get_u8_vse16 by lia.
  rewrite nth_vle16 by (apply Nat.Div0.div_lt_upper_bound; lia).
  apply byte_of_get_u16.
Qed.

Lemma length_store16_map off vals dst : length (store16_map off vals dst) = length dst.
Proof. unfold store16_map. rewrite length_map, length_seq. reflexivity. Qed.

Lemma store16_mem_some off vals dst :
  (2 * (off + length vals) <= length dst)%nat -> store16_mem off vals dst = Some (store16_map off vals dst).
Proof.
  intros H. unfold store16_mem.
  replace (2 * (off + length vals) <=? length dst)%nat with true by (symmetry; apply Nat.leb_le; lia).
  reflexivity.
Qed.

Lemma nth_store16_map off vals dst j :
  (j < length dst)%nat ->
  nth j (store16_map off vals dst) 0 =
  if (2 * off <=? j)%nat && (j <? 2 * (off + length vals))%nat
  then byte_of (nth (j / 2 - off) vals 0) j else nth j dst 0.
Proof. intros. unfold store16_map. apply nth_map_seq. assumption. Qed.

(** On a VLEN = 128 machine the four passes of [_mm512_storeu_epi16]
    write byte [j] of the register to byte [j] of [dst], for every [j]. *)
Lemma storeu_epi16_vlen128 a dst :
  length dst = 64%nat ->
  _mm512_storeu_epi16 128 dst a = Some (map (fun j => byte_of (get_u16 a (j / 2)) j) (seq 0 64)).
Proof.
  intros Hd. unfold _mm512_storeu_epi16. change (vsetvl 128 16 1 8) with 8%nat.
  change (seq 0 4) with [0; 1; 2; 3]%nat. cbn [storeu_epi16_passes].
  repeat (rewrite store16_mem_some
            by (rewrite ?length_map, ?length_seq, ?length_store16_map; lia);
          cbn iota beta).
  f_equal. apply nth_ext with (d := 0) (d' := 0).
  - rewrite !length_store16_map, length_map, length_seq. exact Hd.
  - intros j Hj. rewrite !length_store16_map, Hd in Hj.
    rewrite !nth_store16_map by (rewrite ?length_store16_map; lia).
    rewrite (nth_map_seq (fun j => byte_of (get_u16 a (j / 2)) j) 64 j 0 Hj).
    rewrite !length_map, !length_seq.
    do 64 (destruct j as [|j]; [reflexivity|]). lia.
Qed.

(** Load followed by store on a VLEN = 128 machine: the buffer comes back. *)
Lemma loadu_storeu_epi16_vlen128 buf junk dst :
  length buf = 64%nat -> length dst = 64%nat -> Forall (fun x => 0 <= x < 256) buf ->
  loadu_storeu_epi16 128 buf junk dst = Some buf.
Proof.
  intros Hb Hd Hr. unfold loadu_storeu_epi16.
  rewrite loadu_epi16_vlen128 by exact Hb. rewrite storeu_epi16_vlen128 by exact Hd.
  f_equal. apply nth_ext with (d := 0) (d' := 0).
  - rewrite length_map, length_seq. lia.
  - intros j Hj. rewrite length_map, length_seq in Hj.
    rewrite nth_map_seq, byte_of_get_u16, loadu_epi16_bytes by exact Hj.
    unfold get_u8. apply Z.mod_small.
    rewrite Forall_forall in Hr. apply Hr, nth_In. lia.
Qed.

End LoadStore.

(** C2 (code_bug): [_mm512_loadu_epi8] requests 64 elements at [e8m1]; a
    VLEN = 128 machine grants 16, and no further pass is made, so bytes 16
    to 63 of the result are the uninitialised [result]'s, not the memory's.
    [_mm512_loadu_epi16] requests [vsetvlmax_e16m4()], the hardware maximum,
    which is 64 elements on a VLEN = 256 machine instead of 32: the load
    reads 128 bytes from the 64-byte source and writes 64 elements into
    [int16_t buffer[32]]. *)
Theorem loadu_vl_not_lane_count :
  vsetvl 128 8 1 64 = 16%nat /\
  _mm512_loadu_epi8 128 ex_a (repeat 0 64) <> Some (ref_loadu_epi8 ex_a) /\
  vlmax 256 16 4 = 64%nat /\
  _mm512_loadu_epi16 256 ex_a (repeat 0 64) = None.
Proof.
  split; [reflexivity|]. split; [|split; [reflexivity | vm_compute; reflexivity]].
  vm_compute. intros H. inversion H.
Qed.

(** C3 (code_bug): on a VLEN = 256 machine, loading a 64-byte buffer with
    [_mm512_loadu_epi16] already accesses memory out of bounds (the same
    [vsetvlmax] defect as C2), so the round trip through
    [_mm512_storeu_epi16] has no defined result. *)
Theorem loadu_storeu_epi16_vlen256_out_of_bounds :
  length ex_a = 64%nat /\
  loadu_storeu_epi16 256 ex_a (repeat 0 64) (repeat 0 64) = None.
Proof. split; vm_compute; reflexivity. Qed.

(** * The per-operation loop: early exit and the not-implemented outcome *)

Section RunLoop.

Variables load_float load_int single : nat -> result_t.

Local Abbreviation W := (window_result load_float load_int single).
Local Abbreviation loop := (run_loop load_float load_int single).
Local Abbreviation ffind i n := (find (fun j => is_fail (W j)) (seq i n)).

Lemma is_fail_true r : is_fail r = true -> r = TEST_FAIL.
Proof. destruct r; simpl; congruence. Qed.

Lemma is_fail_false r : is_fail r = false -> r <> TEST_FAIL.
Proof. destruct r; simpl; congruence. Qed.

(** Unfolding one window of the loop, by the outcome of that window. *)
Lemma run_loop_step n i ret :
  loop (S n) i ret =
  if is_fail (W i)
  then {| run_ret := TEST_FAIL; run_windows := [i];
          run_bodies := if is_fail (load_float i) || is_fail (load_int i) then [] else [i] |}
  else let rest := loop n (S i) (W i) in
       {| run_ret := run_ret rest; run_windows := i :: run_windows rest;
          run_bodies := i :: run_bodies rest |}.
Proof.
  unfold window_result. cbn [run_loop].
  destruct (is_fail (load_float i)) eqn:E1;
    [rewrite (is_fail_true _ E1); reflexivity|].
  destruct (is_fail (load_int i)) eqn:E2;
    [rewrite (is_fail_true _ E2); reflexivity|].
  destruct (is_fail (single i)) eqn:E3;
    [rewrite (is_fail_true _ E3); reflexivity|].
  reflexivity.
Qed.

(** The windows entered: up to and including the first failing one. *)
Lemma run_loop_windows n i ret :
  run_windows (loop n i ret) =
  seq i (match ffind i n with Some k => S k - i | None => n end).
Proof.
  revert i ret. induction n as [|n IH]; intros i ret; [reflexivity|].
  rewrite run_loop_step. cbn [seq find].
  destruct (is_fail (W i)) eqn:E.
  - cbn [run_windows]. replace (S i - i)%nat with 1%nat by lia. reflexivity.
  - cbn [run_windows]. rewrite IH.
    destruct (ffind (S i) n) as [k|] eqn:F.
    + apply find_some in F. destruct F as [F _]. apply in_seq in F.
      replace (S k - i)%nat with (S (S k - S i)) by lia. reflexivity.
    + reflexivity.
Qed.

Lemma run_loop_windows_nonempty n i ret : (0 < n)%nat -> run_windows (loop n i ret) <> [].
Proof.
  intros Hn. destruct n as [|n]; [lia|].
  rewrite run_loop_step. destruct (is_fail (W i)); discriminate.
Qed.

(** The final [ret] is the outcome of the last window entered. *)
Lemma run_loop_ret_last n i ret :
  (0 < n)%nat -> run_ret (loop n i ret) = W (last (run_windows (loop n i ret)) 0%nat).
Proof.
  revert i ret. induction n as [|n IH]; intros i ret Hn; [lia|].
  rewrite run_loop_step. destruct (is_fail (W i)) eqn:E.
  - cbn [run_ret run_windows last]. symmetry. apply is_fail_true. exact E.
  - cbn [run_ret run_windows]. destruct n as [|n].
    + reflexivity.
    + rewrite IH by lia.
      pose proof (run_loop_windows_nonempty (S n) (S i) (W i) ltac:(lia)) as Ne.
      destruct (run_windows (loop (S n) (S i) (W i))) as [|w ws]; [congruence|].
      reflexivity.
Qed.

(** Without a failing window, the test body is invoked at every window. *)
Lemma run_loop_bodies_no_fail n i ret :
  ffind i n = None -> run_bodies (loop n i ret) = seq i n.
Proof.
  revert i ret. induction n as [|n IH]; intros i ret F; [reflexivity|].
  rewrite run_loop_step. cbn [seq find] in F.
  destruct (is_fail (W i)) eqn:E; [discriminate|].
  cbn [run_bodies seq]. rewrite IH by exact F. reflexivity.
Qed.

Lemma windows_count_pos : (0 < MAX_TEST_VALUE - 8)%nat.
Proof. apply Nat.ltb_lt. vm_compute. reflexivity. Qed.

End RunLoop.

Lemma last_seq i m d : (0 < m)%nat -> last (seq i m) d = (i + m - 1)%nat.
Proof. intros Hm. destruct m as [|m]; [lia|]. rewrite seq_S, last_last. lia. Qed.

Lemma find_none_intro {A} (f : A -> bool) l :
  (forall x, In x l -> f x = false) -> find f l = None.
Proof.
  intros H. destruct (find f l) as [x|] eqn:F; [|reflexivity].
  apply find_some in F. destruct F as [Fi Ft]. rewrite (H x Fi) in Ft. discriminate.
Qed.

(** C6: [run_test] enters the windows [0, 1, ...] of [i < MAX_TEST_VALUE - 8]
    ([MAX_TEST_VALUE = 10000]) in order, stops at the first window whose
    outcome is [TEST_FAIL] (the failing window itself is the last one
    entered: no later window is evaluated), and reports [TEST_FAIL] exactly
    when such a window exists. *)
Theorem run_test_stops_at_first_failure (load_float load_int single : nat -> result_t) :
  run_windows (run_test load_float load_int single) =
    seq 0 (match first_failing_window load_float load_int single with
           | Some k => S k
           | None => MAX_TEST_VALUE - 8
           end) /\
  (run_ret (run_test load_float load_int single) = TEST_FAIL <->
   first_failing_window load_float load_int single <> None).
Proof.
  unfold run_test, first_failing_window.
  pose proof windows_count_pos as Hpos. generalize dependent (MAX_TEST_VALUE - 8)%nat.
  intros N Hpos.
  rewrite run_loop_ret_last by exact Hpos. rewrite run_loop_windows.
  destruct (find _ (seq 0 N)) as [k|] eqn:F.
  - rewrite Nat.sub_0_r. split; [reflexivity|].
    apply find_some in F. destruct F as [_ Fk].
    rewrite last_seq by lia. replace (0 + S k - 1)%nat with k by lia.
    rewrite (is_fail_true _ Fk). split; [discriminate | reflexivity].
  - split; [reflexivity|].
    rewrite last_seq by exact Hpos.
    assert (is_fail (window_result load_float load_int single (0 + N - 1)) = false) as Hl
      by (apply (find_none _ _ F), in_seq; lia).
    apply is_fail_false in Hl. split; [intros H; contradiction | intros H; contradiction].
Qed.

(** C10: a window whose outcome is [TEST_UNIMPL] never ends the loop (the
    next window, if any, is entered); the final [ret] of [run_test] is the
    outcome of the last window entered; and when the 128-bit loads of every
    window succeed and the test body returns [TEST_UNIMPL] at every window,
    all [MAX_TEST_VALUE - 8] windows run the body and [run_test] returns
    [TEST_UNIMPL]. *)
Theorem run_test_unimpl_never_stops (load_float load_int single : nat -> result_t) :
  (forall i, In i (run_windows (run_test load_float load_int single)) ->
     window_result load_float load_int single i = TEST_UNIMPL ->
     (S i < MAX_TEST_VALUE - 8)%nat ->
     In (S i) (run_windows (run_test load_float load_int single))) /\
  run_ret (run_test load_float load_int single) =
    window_result load_float load_int single
      (last (run_windows (run_test load_float load_int single)) 0%nat) /\
  ((forall i, (i < MAX_TEST_VALUE - 8)%nat ->
      is_fail (load_float i) = false /\ is_fail (load_int i) = false) ->
   (forall i, (i < MAX_TEST_VALUE - 8)%nat -> single i = TEST_UNIMPL) ->
   run_windows (run_test load_float load_int single) = seq 0 (MAX_TEST_VALUE - 8) /\
   run_bodies (run_test load_float load_int single) = seq 0 (MAX_TEST_VALUE - 8) /\
   run_ret (run_test load_float load_int single) = TEST_UNIMPL).
Proof.
  unfold run_test.
  pose proof windows_count_pos as Hpos. generalize dependent (MAX_TEST_VALUE - 8)%nat.
  intros N Hpos.
  split; [|split].
  - intros i Hi Hu HN. rewrite run_loop_windows in *.
    destruct (find _ (seq 0 N)) as [k|] eqn:F.
    + rewrite Nat.sub_0_r in *. apply in_seq in Hi. apply in_seq.
      apply find_some in F. destruct F as [_ Fk].
      assert (i <> k) by (intros ->; rewrite Hu in Fk; discriminate). lia.
    + apply in_seq in Hi. apply in_seq. lia.
  - apply run_loop_ret_last. exact Hpos.
  - intros Hload Hbody.
    assert (find (fun j => is_fail (window_result load_float load_int single j)) (seq 0 N) = None)
      as F.
    { apply find_none_intro. intros x Hx. apply in_seq in Hx.
      unfold window_result. destruct (Hload x ltac:(lia)) as [-> ->].
      rewrite Hbody by lia. reflexivity. }
    rewrite run_loop_windows, F. split; [reflexivity|].
    split; [apply run_loop_bodies_no_fail; exact F|].
    rewrite run_loop_ret_last by exact Hpos. rewrite run_loop_windows, F, last_seq by exact Hpos.
    unfold window_result. destruct (Hload (0 + N - 1)%nat ltac:(lia)) as [-> ->].
    apply Hbody. lia.
Qed.

Lemma run_test_unimpl_never_stops_witness :
  run_ret (run_test (fun _ => TEST_SUCCESS) (fun _ => TEST_SUCCESS) (fun _ => TEST_UNIMPL))
  = TEST_UNIMPL.
Proof.
  destruct (run_test_unimpl_never_stops (fun _ => TEST_SUCCESS) (fun _ => TEST_SUCCESS)
              (fun _ => TEST_UNIMPL)) as [_ [_ H]].
  apply H; intros; [split|]; reflexivity.
Defined.

(** * The driver: exit status and failure count *)

Section DriverProofs.

Variable suite_count : TestSuite -> nat.
Variable suite_test_name : TestSuite -> nat -> String.string.
Variable run_one : TestSuite -> nat -> result_t.

(** Number of failing tests among those run. *)
Definition failures (ran : list (TestSuite * nat)) : nat :=
  length (filter (fun p => is_fail (run_one (fst p) (snd p))) ran).

Definition tally_ok (t : tally) : Prop := t_fail t = failures (t_ran t).

Lemma failures_app l1 l2 : failures (l1 ++ l2) = (failures l1 + failures l2)%nat.
Proof. unfold failures. rewrite filter_app, length_app. reflexivity. Qed.

Lemma tally_ok_count s i t : tally_ok t -> tally_ok (count_result run_one s i t).
Proof.
  unfold tally_ok, count_result. intros H.
  destruct (run_one s i) eqn:E; cbn [t_fail t_ran]; rewrite failures_app, <- H;
    unfold failures; cbn [filter fst snd]; rewrite E; cbn; lia.
Qed.

Lemma tally_ok_fold s idxs t :
  tally_ok t -> tally_ok (fold_left (fun t i => count_result run_one s i t) idxs t).
Proof.
  revert t. induction idxs as [|i idxs IH]; intros t H; [exact H|].
  cbn [fold_left]. apply IH, tally_ok_count, H.
Qed.

Lemma tally_ok_single s idxs t :
  run_single_suite_tests run_one s idxs = Some t -> tally_ok t.
Proof.
  unfold run_single_suite_tests. intros H.
  destruct s; try discriminate; injection H as <-; apply tally_ok_fold; reflexivity.
Qed.

Lemma tally_ok_add t u : tally_ok t -> tally_ok u -> tally_ok (add_tally t u).
Proof. unfold tally_ok, add_tally. cbn [t_fail t_ran]. intros -> ->. rewrite failures_app. reflexivity. Qed.

(** One suite of [run_all_suites_tests]. *)
Lemma tally_ok_all_step run_all idx name s (acc : option tally) :
  (forall t, acc = Some t -> tally_ok t) -> acc <> None -> s <> ALL ->
  (forall t, all_suites_step suite_count suite_test_name run_one run_all idx name acc s = Some t ->
     tally_ok t) /\
  all_suites_step suite_count suite_test_name run_one run_all idx name acc s <> None.
Proof.
  intros Hacc Hne Hs. unfold all_suites_step.
  destruct acc as [t|]; [|congruence].
  destruct (all_suites_selection _ _ _ _ _ _) as [[|i l]|];
    try (split; [intros t' [= <-]; apply Hacc; reflexivity | discriminate]).
  unfold run_single_suite_tests.
  destruct s; try congruence;
    (split; [intros t' [= <-]; apply tally_ok_add;
               [apply Hacc; reflexivity
               | apply tally_ok_fold; try reflexivity; apply tally_ok_count; reflexivity]
            | discriminate]).
Qed.

Lemma run_all_suites_ok run_all idx name :
  (forall t, run_all_suites_tests suite_count suite_test_name run_one run_all idx name = Some t ->
     tally_ok t) /\
  run_all_suites_tests suite_count suite_test_name run_one run_all idx name <> None.
Proof.
  unfold run_all_suites_tests. cbn [fold_left].
  destruct (tally_ok_all_step run_all idx name SSE (Some tally0)) as [H1 N1];
    [intros t [= <-]; reflexivity | discriminate | discriminate |].
  apply tally_ok_all_step; [exact H1 | exact N1 | discriminate].
Qed.

End DriverProofs.

Lemma run_phase_cases suite_count suite_test_name run_one o :
  (forall t, run_phase suite_count suite_test_name run_one o = Some (Some t) ->
     tally_ok run_one t) /\
  run_phase suite_count suite_test_name run_one o <> Some None /\
  (run_phase suite_count suite_test_name run_one o = None ->
     target_suite o <> ALL /\ run_all_tests o = false).
Proof.
  unfold run_phase.
  destruct (target_suite o) eqn:Hs.
  1, 2:
    destruct (single_suite_selection suite_count suite_test_name o _) as [l|] eqn:Sel;
    [ split;
      [intros t E;
       match type of E with
       | Some (run_single_suite_tests _ ?s _) = _ => apply (tally_ok_single run_one s l)
       end; congruence|];
      split; [unfold run_single_suite_tests; discriminate | discriminate]
    | split; [discriminate|]; split; [discriminate|];
      intros _; split; [discriminate|];
      unfold single_suite_selection in Sel; destruct (run_all_tests o); [discriminate | reflexivity] ].
  destruct (run_all_suites_ok suite_count suite_test_name run_one (run_all_tests o)
              (target_test_index o) (target_test_name o)) as [Hok Hne].
  split; [intros t [= H]; exact (Hok t H)|].
  split; [intros [= H]; exact (Hne H) | discriminate].
Qed.

(** C8: for every parsed command line, when [main] runs tests (it returns a
    tally), its exit status is [EXIT_FAILURE] exactly when at least one of
    the tests it ran returned [TEST_FAIL], and its fail count is that number;
    when it returns without a tally, it ran no test: help or listing
    ([EXIT_SUCCESS]), or a rejected single-suite selection ([EXIT_FAILURE]). *)
Theorem main_exit_failure_iff_failures (suite_count : TestSuite -> nat)
  (suite_test_name : TestSuite -> nat -> String.string)
  (run_one : TestSuite -> nat -> result_t) (o : TestOptions) :
  match main suite_count suite_test_name run_one o with
  | (e, Some t) =>
      t_fail t = failures run_one (t_ran t) /\
      (e = EXIT_FAILURE <-> (0 < failures run_one (t_ran t))%nat)
  | (e, None) =>
      show_help o = true \/ list_tests o = true \/
      (target_suite o <> ALL /\ run_all_tests o = false /\ e = EXIT_FAILURE)
  end.
Proof.
  unfold main.
  destruct (show_help o) eqn:H1; [left; reflexivity|].
  destruct (list_tests o) eqn:H2; [right; left; reflexivity|].
  destruct (run_phase_cases suite_count suite_test_name run_one o) as [Hok [Hsn Hnone]].
  destruct (run_phase suite_count suite_test_name run_one o) as [[t|]|] eqn:R.
  - specialize (Hok t eq_refl). unfold tally_ok in Hok.
    split; [exact Hok|]. rewrite <- Hok.
    destruct (Nat.ltb_spec 0 (t_fail t)); split; intros; try lia; try reflexivity; discriminate.
  - congruence.
  - destruct (Hnone eq_refl). right; right. auto.
Qed.

(** * Test-vector generation *)

(** The model of [next] matches SplitMix64's reference output for seed 0
    ([0xe220a8397b1dcdaf]). *)
Example splitmix64_seed0 : fst (Rng.next 0) = 16294208416658607535.
Proof. vm_compute. reflexivity. Qed.

(** C7: constructing the harness resets the generator to [123456] before
    filling the arrays, so two constructions, whatever the generator state
    left before each, produce the same [test_cases_floats] and
    [test_cases_ints]; and two runs of [main] over the same selection, each
    on the arrays of its own construction, give the same exit status and the
    same pass/fail/skip tallies. *)
Theorem construct_deterministic (F : Type) (to_test_float : Z -> F) (to_test_int : Z -> Z)
  (runner : list F * list Z -> TestSuite -> nat -> result_t)
  (suite_count : TestSuite -> nat) (suite_test_name : TestSuite -> nat -> String.string)
  (o : TestOptions) (state1 state2 : Z) :
  fst (Rng.construct F to_test_float to_test_int state1) =
  fst (Rng.construct F to_test_float to_test_int state2) /\
  main suite_count suite_test_name (runner (fst (Rng.construct F to_test_float to_test_int state1))) o =
  main suite_count suite_test_name (runner (fst (Rng.construct F to_test_float to_test_int state2))) o.
Proof.
  assert (forall s, Rng.construct F to_test_float to_test_int s =
                    Rng.gen_loop F to_test_float to_test_int MAX_TEST_VALUE 123456) as E
    by (intros s; reflexivity).
  rewrite !E. split; reflexivity.
Qed.

Example run_test_fail_at_3 :
  run_windows (run_test (fun _ => TEST_SUCCESS) (fun _ => TEST_SUCCESS)
                 (fun i => if (i =? 3)%nat then TEST_FAIL else TEST_SUCCESS)) = [0; 1; 2; 3]%nat.
Proof. vm_compute. reflexivity. Qed.

(** * Further operations of the emulation layer: lane laws *)

Section MoreLaneLemmas.

Lemma to_i16_mod65536 y : 0 <= y < 65536 -> to_i16 y mod 65536 = y.
Proof.
  intros H. unfold to_i16. destruct (Z.ltb_spec y 32768).
  - apply Z.mod_small. lia.
  - replace (y - 65536) with (y + (-1) * 65536) by lia. rewrite Z.mod_add by lia.
    apply Z.mod_small. lia.
Qed.

Lemma to_i16_range y : 0 <= y < 65536 -> -32768 <= to_i16 y < 32768.
Proof. intros H. unfold to_i16. destruct (Z.ltb_spec y 32768); lia. Qed.

Lemma wrap16_small y : -32768 <= y < 32768 -> wrap16 y = y.
Proof.
  intros H. unfold wrap16, to_i16.
  destruct (Z_lt_le_dec y 0).
  - replace (y mod 65536) with (y + 65536)
      by (apply Z.mod_unique with (q := -1); lia).
    destruct (Z.ltb_spec (y + 65536) 32768); lia.
  - rewrite Z.mod_small by lia. destruct (Z.ltb_spec y 32768); lia.
Qed.

Lemma wrap16_range y : -32768 <= wrap16 y < 32768.
Proof. unfold wrap16. apply to_i16_range, Z.mod_pos_bound. lia. Qed.

Lemma get_i16_range v i : -32768 <= get_i16 v i < 32768.
Proof. unfold get_i16. apply to_i16_range, get_u16_range. Qed.

(** Signed lane [i] of a [vse16] store. *)
Lemma get_i16_vse16 vl vals dst i :
  (i < vl)%nat -> (i < 32)%nat -> get_i16 (vse16 vl vals dst) i = wrap16 (nth i vals 0).
Proof. intros. unfold get_i16. rewrite get_u16_vse16 by assumption. reflexivity. Qed.

Lemma length_vse16 vl vals dst : length (vse16 vl vals dst) = 64%nat.
Proof. unfold vse16. rewrite length_map, length_seq. reflexivity. Qed.

End MoreLaneLemmas.

Lemma add_epi16_lane_aux (vlen : nat) (Hv : (128 <= vlen)%nat) (a b junk : m512i) (i : nat)
  (Hi : (i < 32)%nat) :
  get_i16 (_mm512_add_epi16 vlen a b junk) i = wrap16 (get_i16 a i + get_i16 b i).
Proof.
  unfold _mm512_add_epi16.
  rewrite vsetvl_fits by (apply vlmax_e16m4; exact Hv).
  rewrite get_i16_vse16 by lia. unfold vadd_i16.
  rewrite nth_map_combine by (rewrite ?length_vle16_i16; lia).
  cbn [fst snd]. rewrite !nth_vle16_i16 by lia.
  apply wrap16_small, wrap16_range.
Qed.

(** Lane [i] of [_mm512_add_epi16] is the 16-bit wrapped sum of the signed
    lanes; the operation needs VLEN >= 128 ([vsetvl_e16m4(32)]). *)
Theorem add_epi16_lane (vlen : nat) (Hv : (128 <= vlen)%nat) (a b junk : m512i) (i : nat)
  (Hi : (i < 32)%nat) :
  get_i16 (_mm512_add_epi16 vlen a b junk) i = wrap16 (get_i16 a i + get_i16 b i).
Proof. apply add_epi16_lane_aux; assumption. Qed.

Lemma add_epi16_lane_witness :
  (128 <= 128)%nat /\ (0 < 32)%nat /\
  get_i16 (_mm512_add_epi16 128 (repeat 255 64) (repeat 0 64) (repeat 0 64)) 0 =
  wrap16 (get_i16 (repeat 255 64) 0 + get_i16 (repeat 0 64) 0).
Proof.
  split; [lia|]. split; [lia|].
  apply (add_epi16_lane 128); lia.
Defined.

Lemma sub_epi16_lane_aux (vlen : nat) (Hv : (64 <= vlen)%nat) (a b junk : m512i) (i : nat)
  (Hi : (i < 32)%nat) :
  get_i16 (_mm512_sub_epi16 vlen a b junk) i = wrap16 (get_i16 a i - get_i16 b i).
Proof.
  unfold _mm512_sub_epi16.
  rewrite vsetvl_fits by (apply vlmax_e16m8; exact Hv).
  rewrite get_i16_vse16 by lia. unfold vsub_i16.
  rewrite nth_map_combine by (rewrite ?length_vle16_i16; lia).
  cbn [fst snd]. rewrite !nth_vle16_i16 by lia.
  apply wrap16_small, wrap16_range.
Qed.

(** Lane [i] of [_mm512_sub_epi16] is the 16-bit wrapped difference. *)
Theorem sub_epi16_lane (vlen : nat) (Hv : (64 <= vlen)%nat) (a b junk : m512i) (i : nat)
  (Hi : (i < 32)%nat) :
  get_i16 (_mm512_sub_epi16 vlen a b junk) i = wrap16 (get_i16 a i - get_i16 b i).
Proof. apply sub_epi16_lane_aux; assumption. Qed.

Lemma sub_epi16_lane_witness :
  (64 <= 128)%nat /\ (0 < 32)%nat /\
  get_i16 (_mm512_sub_epi16 128 (repeat 0 64) (repeat 1 64) (repeat 0 64)) 0 =
  wrap16 (get_i16 (repeat 0 64) 0 - get_i16 (repeat 1 64) 0).
Proof.
  split; [lia|]. split; [lia|].
  apply (sub_epi16_lane 128); lia.
Defined.

Lemma min_max_epi16_lane_aux (vlen : nat) (Hv : (64 <= vlen)%nat) (a b junk : m512i) (i : nat)
  (Hi : (i < 32)%nat) :
  get_i16 (_mm512_min_epi16 vlen a b junk) i = Z.min (get_i16 a i) (get_i16 b i) /\
  get_i16 (_mm512_max_epi16 vlen a b junk) i = Z.max (get_i16 a i) (get_i16 b i).
Proof.
  pose proof (get_i16_range a i). pose proof (get_i16_range b i).
  unfold _mm512_min_epi16, _mm512_max_epi16.
  rewrite vsetvl_fits by (apply vlmax_e16m8; exact Hv).
  rewrite !get_i16_vse16 by lia. unfold vmin_i16, vmax_i16.
  rewrite !nth_map_combine by (rewrite ?length_vle16_i16; lia).
  cbn [fst snd]. rewrite !nth_vle16_i16 by lia.
  split; apply wrap16_small; lia.
Qed.

(** Lanes of [_mm512_min_epi16] / [_mm512_max_epi16]: the signed minimum
    and maximum of the lanes. *)
Theorem min_max_epi16_lane (vlen : nat) (Hv : (64 <= vlen)%nat) (a b junk : m512i) (i : nat)
  (Hi : (i < 32)%nat) :
  get_i16 (_mm512_min_epi16 vlen a b junk) i = Z.min (get_i16 a i) (get_i16 b i) /\
  get_i16 (_mm512_max_epi16 vlen a b junk) i = Z.max (get_i16 a i) (get_i16 b i).
Proof. apply min_max_epi16_lane_aux; assumption. Qed.

Lemma min_max_epi16_lane_witness :
  (64 <= 128)%nat /\ (3 < 32)%nat /\
  get_i16 (_mm512_min_epi16 128 ex_a ex_b (repeat 0 64)) 3 = Z.min (get_i16 ex_a 3) (get_i16 ex_b 3) /\
  get_i16 (_mm512_max_epi16 128 ex_a ex_b (repeat 0 64)) 3 = Z.max (get_i16 ex_a 3) (get_i16 ex_b 3).
Proof.
  split; [lia|]. split; [lia|].
  apply (min_max_epi16_lane 128); lia.
Defined.

Lemma min_max_epu16_lane_aux (vlen : nat) (Hv : (64 <= vlen)%nat) (a b junk : m512i) (i : nat)
  (Hi : (i < 32)%nat) :
  get_u16 (_mm512_min_epu16 vlen a b junk) i = Z.min (get_u16 a i) (get_u16 b i) /\
  get_u16 (_mm512_max_epu16 vlen a b junk) i = Z.max (get_u16 a i) (get_u16 b i).
Proof.
  pose proof (get_u16_range a i). pose proof (get_u16_range b i).
  unfold _mm512_min_epu16, _mm512_max_epu16.
  rewrite vsetvl_fits by (apply vlmax_e16m8; exact Hv).
  rewrite !get_u16_vse16 by lia. unfold vminu, vmaxu.
  rewrite !nth_map_combine by (rewrite ?length_vle16; lia).
  cbn [fst snd]. rewrite !nth_vle16 by lia.
  split; apply Z.mod_small; lia.
Qed.

(** Lanes of [_mm512_min_epu16] / [_mm512_max_epu16]: the unsigned
    minimum and maximum of the lanes. *)
Theorem min_max_epu16_lane (vlen : nat) (Hv : (64 <= vlen)%nat) (a b junk : m512i) (i : nat)
  (Hi : (i < 32)%nat) :
  get_u16 (_mm512_min_epu16 vlen a b junk) i = Z.min (get_u16 a i) (get_u16 b i) /\
  get_u16 (_mm512_max_epu16 vlen a b junk) i = Z.max (get_u16 a i) (get_u16 b i).
Proof. apply min_max_epu16_lane_aux; assumption. Qed.

Lemma min_max_epu16_lane_witness :
  (64 <= 128)%nat /\ (3 < 32)%nat /\
  get_u16 (_mm512_min_epu16 128 ex_a ex_b (repeat 0 64)) 3 = Z.min (get_u16 ex_a 3) (get_u16 ex_b 3) /\
  get_u16 (_mm512_max_epu16 128 ex_a ex_b (repeat 0 64)) 3 = Z.max (get_u16 ex_a 3) (get_u16 ex_b 3).
Proof.
  split; [lia|]. split; [lia|].
  apply (min_max_epu16_lane 128); lia.
Defined.

(** [_mm512_setzero_si512] returns 64 zero bytes, whatever its local
    [result] held before. *)
Theorem setzero_si512_zero (vlen : nat) (Hv : (64 <= vlen)%nat) (junk : m512i) :
  _mm512_setzero_si512 vlen junk = repeat 0 64.
Proof.
  unfold _mm512_setzero_si512.
  rewrite vsetvl_fits by (apply vlmax_e8m8; exact Hv).
  apply nth_ext with (d := 0) (d' := 0).
  - unfold vse8. rewrite length_map, length_seq, repeat_length. reflexivity.
  - intros j Hj. unfold vse8 in *. rewrite length_map, length_seq in Hj.
    rewrite nth_map_seq by exact Hj.
    replace (j <? 64)%nat with true by (symmetry; apply Nat.ltb_lt; exact Hj).
    unfold vmv_v_x. rewrite !nth_repeat_lt by exact Hj. reflexivity.
Qed.

Lemma setzero_si512_zero_witness :
  (64 <= 256)%nat /\ _mm512_setzero_si512 256 ex_a = repeat 0 64.
Proof. split; [lia | apply (setzero_si512_zero 256); lia]. Defined.

(** * 64-bit loads and stores: [_mm512_loadu_si512] / [_mm512_storeu_si512] *)

Section Bytes64.

Lemma le_bytes_nth (l : list Z) (m : nat) :
  Forall (fun b => 0 <= b < 256) l -> (m < length l)%nat ->
  (le_bytes l / 2 ^ (8 * Z.of_nat m)) mod 256 = nth m l 0.
Proof.
  revert m. induction l as [|b r IH]; intros m Hf Hm; [simpl in Hm; lia|].
  inversion Hf as [|? ? Hb Hr]; subst.
  destruct m as [|m].
  - cbn [le_bytes nth]. change (2 ^ (8 * Z.of_nat 0)) with 1. rewrite Z.div_1_r.
    rewrite Z.mul_comm, Z.mod_add by lia. apply Z.mod_small. exact Hb.
  - cbn [le_bytes nth]. simpl in Hm.
    replace (8 * Z.of_nat (S m)) with (8 + 8 * Z.of_nat m) by lia.
    rewrite Z.pow_add_r by lia. rewrite <- Z.div_div by (try apply Z.pow_pos_nonneg; lia).
    change (2 ^ 8) with 256.
    rewrite Z.add_comm, Z.mul_comm, Z.div_add_l by lia.
    rewrite (Z.div_small b 256 Hb), Z.add_0_r.
    apply IH; [exact Hr | lia].
Qed.

Lemma get_u8_all_bytes v i n : Forall (fun b => 0 <= b < 256) (map (get_u8 v) (seq i n)).
Proof. apply Forall_forall. intros x Hx. apply in_map_iff in Hx. destruct Hx as [j [<- _]]. apply get_u8_range. Qed.

(** Byte [j] of the 64-bit element that covers it is byte [j] of the
    register. *)
Lemma byte64_of_get_u64 v j : byte64_of (get_u64 v (j / 8)) j = get_u8 v j.
Proof.
  unfold byte64_of, get_u64.
  rewrite le_bytes_nth by (apply get_u8_all_bytes || (rewrite length_map, length_seq; apply Nat.mod_upper_bound; lia)).
  rewrite (nth_map_lt _ _ _ 0 0%nat) by (rewrite length_seq; apply Nat.mod_upper_bound; lia).
  rewrite seq_nth by (apply Nat.mod_upper_bound; lia).
  f_equal. pose proof (Nat.div_mod_eq j 8). lia.
Qed.

Lemma vsetvl_e64m8 vlen : (64 <= vlen)%nat -> vsetvl vlen 64 8 8 = 8%nat.
Proof.
  intros H. apply vsetvl_fits. unfold vlmax. apply Nat.div_le_lower_bound; lia.
Qed.

Lemma nth_vle64 vl v k : (k < vl)%nat -> nth k (vle64 vl v) 0 = get_u64 v k.
Proof. intros. unfold vle64. apply nth_map_seq. assumption. Qed.

Lemma length_vle64 vl v : length (vle64 vl v) = vl.
Proof. unfold vle64. rewrite length_map, length_seq. reflexivity. Qed.

End Bytes64.

Lemma storeu_si512_bytes_aux (vlen : nat) (Hv : (64 <= vlen)%nat) (dst : list Z) (a : m512i) :
  _mm512_storeu_si512 vlen dst a =
  if (64 <=? length dst)%nat then
    Some (map (fun j => if (j <? 64)%nat then get_u8 a j else nth j dst 0) (seq 0 (length dst)))
  else None.
Proof.
  unfold _mm512_storeu_si512, store64_mem. rewrite vsetvl_e64m8 by exact Hv.
  rewrite length_vle64. change (8 * 8)%nat with 64%nat.
  destruct (64 <=? length dst)%nat; [|reflexivity]. f_equal.
  apply map_ext_in. intros j Hj. apply in_seq in Hj.
  destruct (Nat.ltb_spec j 64); [|reflexivity].
  rewrite nth_vle64 by (apply Nat.Div0.div_lt_upper_bound; lia).
  apply byte64_of_get_u64.
Qed.

(** [_mm512_storeu_si512] on VLEN >= 64 writes byte [j] of the register to
    byte [j] of [dst] for [j < 64] and leaves the rest of [dst]; a
    destination shorter than 64 bytes is written out of bounds. *)
Theorem storeu_si512_bytes (vlen : nat) (Hv : (64 <= vlen)%nat) (dst : list Z) (a : m512i) :
  _mm512_storeu_si512 vlen dst a =
  if (64 <=? length dst)%nat then
    Some (map (fun j => if (j <? 64)%nat then get_u8 a j else nth j dst 0) (seq 0 (length dst)))
  else None.
Proof. apply storeu_si512_bytes_aux; assumption. Qed.

Lemma storeu_si512_bytes_witness :
  (64 <= 128)%nat /\
  _mm512_storeu_si512 128 (repeat 9 70) ex_a =
  if (64 <=? length (repeat 9 70))%nat then
    Some (map (fun j => if (j <? 64)%nat then get_u8 ex_a j else nth j (repeat 9 70) 0)
              (seq 0 (length (repeat 9 70))))
  else None.
Proof. split; [lia | apply (storeu_si512_bytes 128); lia]. Defined.

Lemma loadu_si512_bytes vlen mem junk :
  (64 <= vlen)%nat -> (64 <= length mem)%nat ->
  _mm512_loadu_si512 vlen mem junk = Some (map (get_u8 mem) (seq 0 64)).
Proof.
  intros Hv Hm. unfold _mm512_loadu_si512. rewrite vsetvl_e64m8 by exact Hv.
  change (8 * 8)%nat with 64%nat.
  replace (64 <=? length mem)%nat with true by (symmetry; apply Nat.leb_le; exact Hm).
  f_equal. unfold vse64. apply map_ext_in. intros j Hj. apply in_seq in Hj.
  replace (j <? 8 * 8)%nat with true by (symmetry; apply Nat.ltb_lt; lia).
  rewrite nth_vle64 by (apply Nat.Div0.div_lt_upper_bound; lia).
  apply byte64_of_get_u64.
Qed.

(** Round trip: on VLEN >= 64, [_mm512_loadu_si512] from a 64-byte buffer
    followed by [_mm512_storeu_si512] into a 64-byte buffer gives back the
    source buffer; loading from a buffer shorter than 64 bytes reads out of
    bounds. *)
Theorem loadu_storeu_si512_roundtrip (vlen : nat) (Hv : (64 <= vlen)%nat) (mem junk dst : list Z) :
  Forall (fun b => 0 <= b < 256) mem -> length dst = 64%nat ->
  (length mem = 64%nat ->
   match _mm512_loadu_si512 vlen mem junk with
   | Some v => _mm512_storeu_si512 vlen dst v
   | None => None
   end = Some mem) /\
  ((length mem < 64)%nat -> _mm512_loadu_si512 vlen mem junk = None).
Proof.
  intros Hb Hd. split.
  - intros Hm. rewrite loadu_si512_bytes by lia. rewrite storeu_si512_bytes_aux by exact Hv.
    rewrite Hd. cbn [Nat.leb]. f_equal.
    apply nth_ext with (d := 0) (d' := 0).
    + rewrite length_map, length_seq. lia.
    + intros j Hj. rewrite length_map, length_seq in Hj.
      rewrite nth_map_seq by exact Hj.
      replace (j <? 64)%nat with true by (symmetry; apply Nat.ltb_lt; exact Hj).
      unfold get_u8. rewrite nth_map_seq by exact Hj.
      rewrite Z.mod_mod by lia. apply Z.mod_small.
      rewrite Forall_forall in Hb. apply Hb, nth_In. lia.
  - intros Hm. unfold _mm512_loadu_si512. rewrite vsetvl_e64m8 by exact Hv.
    change (8 * 8)%nat with 64%nat.
    replace (64 <=? length mem)%nat with false by (symmetry; apply Nat.leb_gt; exact Hm).
    reflexivity.
Qed.

Lemma loadu_storeu_si512_roundtrip_witness :
  (64 <= 128)%nat /\ Forall (fun b => 0 <= b < 256) ex_a /\ length (repeat 0 64) = 64%nat /\
  ((length ex_a = 64%nat ->
   match _mm512_loadu_si512 128 ex_a (repeat 0 64) with
   | Some v => _mm512_storeu_si512 128 (repeat 0 64) v
   | None => None
   end = Some ex_a) /\
  ((length ex_a < 64)%nat -> _mm512_loadu_si512 128 ex_a (repeat 0 64) = None)).
Proof.
  assert (Forall (fun b => 0 <= b < 256) ex_a) as Hb
    by (vm_compute; repeat constructor; discriminate).
  split; [lia|]. split; [exact Hb|]. split; [reflexivity|].
  apply (loadu_storeu_si512_roundtrip 128); [lia | exact Hb | reflexivity].
Defined.

(** * Byte loads and 16-bit stores for every VLEN *)

(** [_mm512_loadu_epi8] from a buffer of at least 64 bytes: byte [j] of the
    result is [mem[j]] for [j < VLEN / 8], the bytes granted by
    [vsetvl_e8m1(64)], and the uninitialised [result]'s byte beyond; the
    load is exact exactly when VLEN >= 512. *)
Theorem loadu_epi8_bytes (vlen : nat) (mem junk : list Z) (Hm : (64 <= length mem)%nat) :
  exists v, _mm512_loadu_epi8 vlen mem junk = Some v /\
  forall j, (j < 64)%nat ->
    nth j v 0 = if (j <? vlen / 8)%nat then get_u8 mem j else nth j junk 0.
Proof.
  unfold _mm512_loadu_epi8, vsetvl, vlmax. rewrite Nat.mul_1_l.
  replace (Nat.min 64 (vlen / 8) <=? length mem)%nat with true
    by (symmetry; apply Nat.leb_le; lia).
  eexists. split; [reflexivity|]. intros j Hj.
  unfold vse8. rewrite nth_map_seq by exact Hj.
  destruct (Nat.ltb_spec j (Nat.min 64 (vlen / 8))) as [H1 | H1];
    destruct (Nat.ltb_spec j (vlen / 8)) as [H2 | H2]; try (exfalso; lia).
  - rewrite nth_vle8 by exact H1. unfold get_u8. apply Z.mod_mod. lia.
  - reflexivity.
Qed.

Lemma loadu_epi8_bytes_witness :
  (64 <= length ex_a)%nat /\
  exists v, _mm512_loadu_epi8 128 ex_a (repeat 0 64) = Some v /\
  forall j, (j < 64)%nat ->
    nth j v 0 = if (j <? 128 / 8)%nat then get_u8 ex_a j else nth j (repeat 0 64) 0.
Proof. split; [vm_compute; lia | apply (loadu_epi8_bytes 128); vm_compute; lia]. Defined.

Section Store16.

Lemma store16_mem_length off vals dst d :
  store16_mem off vals dst = Some d -> length d = length dst.
Proof.
  unfold store16_mem. destruct (_ <=? _)%nat; intros H; inversion H. apply length_store16_map.
Qed.

Lemma store16_mem_none off vals dst :
  (length dst < 2 * (off + length vals))%nat -> store16_mem off vals dst = None.
Proof.
  intros H. unfold store16_mem.
  replace (2 * (off + length vals) <=? length dst)%nat with false
    by (symmetry; apply Nat.leb_gt; exact H).
  reflexivity.
Qed.

End Store16.

Lemma storeu_epi16_bytes_aux (vlen : nat) (Hv : (128 <= vlen)%nat) (dst : list Z) (a : m512i) :
  _mm512_storeu_epi16 vlen dst a =
  if (64 <=? length dst)%nat then
    Some (map (fun j => if (j <? 64)%nat then get_u8 a j else nth j dst 0) (seq 0 (length dst)))
  else None.
Proof.
  unfold _mm512_storeu_epi16.
  rewrite vsetvl_fits by (unfold vlmax; apply Nat.div_le_lower_bound; lia).
  change (seq 0 4) with [0; 1; 2; 3]%nat. cbn [storeu_epi16_passes].
  destruct (Nat.leb_spec 64 (length dst)) as [Hd | Hd].
  - repeat (rewrite store16_mem_some
              by (rewrite ?length_map, ?length_seq, ?length_store16_map; lia);
            cbn iota beta).
    f_equal. apply nth_ext with (d := 0) (d' := 0).
    + rewrite !length_store16_map, length_map, length_seq. reflexivity.
    + intros j Hj. rewrite !length_store16_map in Hj.
      rewrite !nth_store16_map by (rewrite ?length_store16_map; lia).
      rewrite (nth_map_seq (fun j => if (j <? 64)%nat then get_u8 a j else nth j dst 0)
                 (length dst) j 0 Hj).
      rewrite !length_map, !length_seq.
      destruct (Nat.ltb_spec j 64) as [Hj64 | Hj64].
      * rewrite <- byte_of_get_u16.
        do 64 (destruct j as [|j]; [reflexivity|]). lia.
      * repeat rewrite (proj2 (Nat.ltb_ge j _)) by lia.
        rewrite !andb_false_r. reflexivity.
  - destruct (store16_mem (0 * 8) _ dst) as [d1|] eqn:E1; [|reflexivity].
    destruct (store16_mem (1 * 8) _ d1) as [d2|] eqn:E2; [|reflexivity].
    destruct (store16_mem (2 * 8) _ d2) as [d3|] eqn:E3; [|reflexivity].
    apply store16_mem_length in E1, E2, E3.
    rewrite store16_mem_none; [reflexivity|].
    rewrite length_map, length_seq. lia.
Qed.

(** [_mm512_storeu_epi16] on VLEN >= 128: its four passes of eight 16-bit
    elements write byte [j] of the register to byte [j] of [dst] for
    [j < 64] and leave the rest of [dst]; a destination shorter than 64
    bytes is written out of bounds.  These are the bytes
    [_mm512_storeu_si512] writes. *)
Theorem storeu_epi16_bytes (vlen : nat) (Hv : (128 <= vlen)%nat) (dst : list Z) (a : m512i) :
  _mm512_storeu_epi16 vlen dst a =
  if (64 <=? length dst)%nat then
    Some (map (fun j => if (j <? 64)%nat then get_u8 a j else nth j dst 0) (seq 0 (length dst)))
  else None.
Proof. apply storeu_epi16_bytes_aux; assumption. Qed.

Lemma storeu_epi16_bytes_witness :
  (128 <= 256)%nat /\
  _mm512_storeu_epi16 256 (repeat 9 40) ex_a =
  if (64 <=? length (repeat 9 40))%nat then
    Some (map (fun j => if (j <? 64)%nat then get_u8 ex_a j else nth j (repeat 9 40) 0)
              (seq 0 (length (repeat 9 40))))
  else None.
Proof. split; [lia | apply (storeu_epi16_bytes 256); lia]. Defined.

(** * Outcomes of the AVX test bodies on a VLEN = 128 machine *)

Section TestLemmas.

Lemma length_array16 xs : length (array16 xs) = (2 * length xs)%nat.
Proof. unfold array16. rewrite length_map, length_seq. reflexivity. Qed.

Lemma get_u16_array16 xs i :
  (i < length xs)%nat -> get_u16 (array16 xs) i = nth i xs 0 mod 65536.
Proof.
  intros Hi. unfold get_u16, get_u8, array16.
  rewrite !nth_map_seq by lia.
  unfold byte_of. rewrite even_double, even_double_1, div2_double, div2_double_1, !Z.mod_mod by lia.
  apply mod_65536_split.
Qed.

Lemma length_test_array f iter k : length (test_array f iter k) = 32%nat.
Proof. unfold test_array. rewrite length_map, length_seq. reflexivity. Qed.

Lemma nth_test_array f iter k i :
  (i < 32)%nat -> nth i (test_array f iter k) 0 = f iter (Z.of_nat i + k).
Proof. intros. unfold test_array. apply (nth_map_seq (fun i => f iter (Z.of_nat i + k))). assumption. Qed.

(** [_mm512_loadu_epi16] on VLEN = 128 reads the 32 elements of a 32-element
    array. *)
Lemma loadu_epi16_array16 xs junk :
  length xs = 32%nat ->
  exists a, _mm512_loadu_epi16 128 (array16 xs) junk = Some a /\
  forall i, (i < 32)%nat -> get_u16 a i = nth i xs 0 mod 65536.
Proof.
  intros Hx. rewrite loadu_epi16_vlen128 by (rewrite length_array16; lia).
  eexists. split; [reflexivity|]. intros i Hi.
  rewrite get_u16_vse16 by lia. rewrite nth_vle16 by lia.
  rewrite get_u16_array16 by lia. apply Z.mod_mod. lia.
Qed.

Lemma length_local64 junk : length (local64 junk) = 64%nat.
Proof. unfold local64. rewrite length_map, length_seq. reflexivity. Qed.

Lemma storeu_si512_local64 vlen a junk :
  (64 <= vlen)%nat ->
  exists r, _mm512_storeu_si512 vlen (local64 junk) a = Some r /\
  forall i, (i < 32)%nat -> get_u16 r i = get_u16 a i.
Proof.
  intros Hv. rewrite storeu_si512_bytes_aux by exact Hv. rewrite length_local64. cbn [Nat.leb].
  eexists. split; [reflexivity|].
  assert (forall j, (j < 64)%nat ->
            get_u8 (map (fun j => if (j <? 64)%nat then get_u8 a j else nth j (local64 junk) 0)
                        (seq 0 64)) j = get_u8 a j) as Hb.
  { intros j Hj. unfold get_u8 at 1. rewrite nth_map_seq by exact Hj.
    replace (j <? 64)%nat with true by (symmetry; apply Nat.ltb_lt; exact Hj).
    unfold get_u8. apply Z.mod_mod. lia. }
  intros i Hi. unfold get_u16. rewrite !Hb by lia. reflexivity.
Qed.

(** The helpers [get_epi16] / [get_epu16] read the signed / unsigned lane. *)
Lemma get_epi16_lane vlen a i junk :
  (64 <= vlen)%nat -> (i < 32)%nat -> get_epi16 vlen a i junk = Some (get_i16 a i).
Proof.
  intros Hv Hi. unfold get_epi16.
  replace (i <? 32)%nat with true by (symmetry; apply Nat.ltb_lt; exact Hi).
  destruct (storeu_si512_local64 vlen a junk Hv) as [r [-> Hr]].
  unfold get_i16. rewrite Hr by exact Hi. reflexivity.
Qed.

Lemma get_epu16_lane vlen a i junk :
  (64 <= vlen)%nat -> (i < 32)%nat -> get_epu16 vlen a i junk = Some (get_u16 a i).
Proof.
  intros Hv Hi. unfold get_epu16.
  replace (i <? 32)%nat with true by (symmetry; apply Nat.ltb_lt; exact Hi).
  destruct (storeu_si512_local64 vlen a junk Hv) as [r [-> Hr]].
  rewrite Hr by exact Hi. reflexivity.
Qed.

Lemma check_lanes_some got expected g is :
  (forall i, In i is -> got i = Some (g i)) ->
  check_lanes got expected is =
  Some (if forallb (fun i => g i =? expected i) is then TEST_SUCCESS else TEST_FAIL).
Proof.
  induction is as [|i r IH]; intros H; [reflexivity|].
  cbn [check_lanes forallb]. rewrite H by (left; reflexivity).
  destruct (g i =? expected i); [|reflexivity]. cbn [andb].
  apply IH. intros k Hk. apply H. right. exact Hk.
Qed.

Lemma binop_test16_vlen128 op get a_data b_data expected ja jb jg (G : nat -> Z) :
  length a_data = 32%nat -> length b_data = 32%nat ->
  (forall a b,
     (forall i, (i < 32)%nat -> get_u16 a i = nth i a_data 0 mod 65536) ->
     (forall i, (i < 32)%nat -> get_u16 b i = nth i b_data 0 mod 65536) ->
     forall i, (i < 32)%nat -> get 128%nat (op a b) i (jg i) = Some (G i)) ->
  binop_test16 128 op get a_data b_data expected ja jb jg =
  Some (if forallb (fun i => G i =? expected i) (seq 0 32) then TEST_SUCCESS else TEST_FAIL).
Proof.
  intros Ha Hb Hop. unfold binop_test16.
  destruct (loadu_epi16_array16 a_data ja Ha) as [a [-> Ha']].
  destruct (loadu_epi16_array16 b_data jb Hb) as [b [-> Hb']].
  apply check_lanes_some. intros i Hi. apply in_seq in Hi.
  apply Hop; [exact Ha' | exact Hb' | lia].
Qed.

Lemma forallb_seq_true (f : nat -> bool) n :
  (forall i, (i < n)%nat -> f i = true) -> forallb f (seq 0 n) = true.
Proof.
  intros H. apply forallb_forall. intros i Hi. apply in_seq in Hi. apply H. lia.
Qed.

Lemma to_i16_mod_id y : 0 <= y < 65536 -> to_i16 (to_i16 y mod 65536) = to_i16 y.
Proof. intros H. rewrite to_i16_mod65536 by exact H. reflexivity. Qed.

Lemma iter_u16_range iter k : 0 <= iter_u16 iter k < 65536.
Proof. unfold iter_u16. apply Z.mod_pos_bound. lia. Qed.

(** A signed lane loaded from an [int16_t] test array is the array's value. *)
Lemma get_i16_iter a iter k i :
  get_u16 a i = iter_i16 iter k mod 65536 -> get_i16 a i = iter_i16 iter k.
Proof.
  intros H. unfold get_i16. rewrite H. unfold iter_i16.
  apply to_i16_mod_id, Z.mod_pos_bound. lia.
Qed.

Lemma iter_i16_range iter k : -32768 <= iter_i16 iter k < 32768.
Proof. unfold iter_i16. apply to_i16_range, Z.mod_pos_bound. lia. Qed.

Lemma iter_u16_mod iter k : iter_u16 iter k = (iter + k) mod 65536.
Proof.
  unfold iter_u16. apply Z.mod_mod_divide. exists 65536. reflexivity.
Qed.

End TestLemmas.

(** [test_mm512_add_epi16] and [test_mm512_sub_epi16] pass for every
    iteration index [iter] on a VLEN = 128 machine: the wrap-around of the
    vector lanes is the one of the [int16_t] expected values. *)
Theorem add_sub_epi16_tests_pass (iter : Z) (ja jb jr : m512i) (jg : nat -> list Z) :
  test_mm512_add_epi16 128 iter ja jb jr jg = Some TEST_SUCCESS /\
  test_mm512_sub_epi16 128 iter ja jb jr jg = Some TEST_SUCCESS.
Proof.
  split.
  - unfold test_mm512_add_epi16.
    erewrite binop_test16_vlen128 with
      (G := fun i => wrap16 (iter_i16 iter (Z.of_nat i + 0) + iter_i16 iter (Z.of_nat i + 1)));
      try apply length_test_array.
    + rewrite forallb_seq_true; [reflexivity|]. intros i Hi.
      rewrite !nth_test_array by exact Hi. apply Z.eqb_refl.
    + intros a b Ha Hb i Hi. rewrite get_epi16_lane by lia.
      rewrite add_epi16_lane_aux by lia.
      rewrite (get_i16_iter a iter (Z.of_nat i + 0) i), (get_i16_iter b iter (Z.of_nat i + 1) i);
        [reflexivity | rewrite Hb by exact Hi | rewrite Ha by exact Hi];
        rewrite ?nth_test_array by exact Hi; reflexivity.
  - unfold test_mm512_sub_epi16.
    erewrite binop_test16_vlen128 with
      (G := fun i => wrap16 (iter_i16 iter (Z.of_nat i + 0) - iter_i16 iter (Z.of_nat i + 1)));
      try apply length_test_array.
    + rewrite forallb_seq_true; [reflexivity|]. intros i Hi.
      rewrite !nth_test_array by exact Hi. apply Z.eqb_refl.
    + intros a b Ha Hb i Hi. rewrite get_epi16_lane by lia.
      rewrite sub_epi16_lane_aux by lia.
      rewrite (get_i16_iter a iter (Z.of_nat i + 0) i), (get_i16_iter b iter (Z.of_nat i + 1) i);
        [reflexivity | rewrite Hb by exact Hi | rewrite Ha by exact Hi];
        rewrite ?nth_test_array by exact Hi; reflexivity.
Qed.

(** [test_mm512_min_epi16], [test_mm512_max_epi16], [test_mm512_min_epu16]
    and [test_mm512_max_epu16] pass for every iteration index on a VLEN =
    128 machine. *)
Theorem min_max_tests_pass (iter : Z) (ja jb jr : m512i) (jg : nat -> list Z) :
  test_mm512_min_epi16 128 iter ja jb jr jg = Some TEST_SUCCESS /\
  test_mm512_max_epi16 128 iter ja jb jr jg = Some TEST_SUCCESS /\
  test_mm512_min_epu16 128 iter ja jb jr jg = Some TEST_SUCCESS /\
  test_mm512_max_epu16 128 iter ja jb jr jg = Some TEST_SUCCESS.
Proof.
  split; [|split; [|split]].
  - unfold test_mm512_min_epi16.
    erewrite binop_test16_vlen128 with
      (G := fun i => Z.min (iter_i16 iter (Z.of_nat i + 0)) (iter_i16 iter (Z.of_nat i + 5)));
      try apply length_test_array.
    + rewrite forallb_seq_true; [reflexivity|]. intros i Hi.
      rewrite !nth_test_array by exact Hi. apply Z.eqb_eq.
      destruct (Z.ltb_spec (iter_i16 iter (Z.of_nat i + 0)) (iter_i16 iter (Z.of_nat i + 5))); lia.
    + intros a b Ha Hb i Hi. rewrite get_epi16_lane by lia.
      rewrite (proj1 (min_max_epi16_lane_aux 128 ltac:(lia) a b jr i Hi)).
      rewrite (get_i16_iter a iter (Z.of_nat i + 0) i), (get_i16_iter b iter (Z.of_nat i + 5) i);
        [reflexivity | rewrite Hb by exact Hi | rewrite Ha by exact Hi];
        rewrite ?nth_test_array by exact Hi; reflexivity.
  - unfold test_mm512_max_epi16.
    erewrite binop_test16_vlen128 with
      (G := fun i => Z.max (iter_i16 iter (Z.of_nat i + 0)) (iter_i16 iter (Z.of_nat i + 5)));
      try apply length_test_array.
    + rewrite forallb_seq_true; [reflexivity|]. intros i Hi.
      rewrite !nth_test_array by exact Hi. apply Z.eqb_eq.
      destruct (Z.ltb_spec (iter_i16 iter (Z.of_nat i + 5)) (iter_i16 iter (Z.of_nat i + 0))); lia.
    + intros a b Ha Hb i Hi. rewrite get_epi16_lane by lia.
      rewrite (proj2 (min_max_epi16_lane_aux 128 ltac:(lia) a b jr i Hi)).
      rewrite (get_i16_iter a iter (Z.of_nat i + 0) i), (get_i16_iter b iter (Z.of_nat i + 5) i);
        [reflexivity | rewrite Hb by exact Hi | rewrite Ha by exact Hi];
        rewrite ?nth_test_array by exact Hi; reflexivity.
  - unfold test_mm512_min_epu16.
    erewrite binop_test16_vlen128 with
      (G := fun i => Z.min (iter_u16 iter (Z.of_nat i + 0)) (iter_u16 iter (Z.of_nat i + 5)));
      try apply length_test_array.
    + rewrite forallb_seq_true; [reflexivity|]. intros i Hi.
      rewrite !nth_test_array by exact Hi. apply Z.eqb_eq.
      destruct (Z.ltb_spec (iter_u16 iter (Z.of_nat i + 0)) (iter_u16 iter (Z.of_nat i + 5))); lia.
    + intros a b Ha Hb i Hi. rewrite get_epu16_lane by lia.
      rewrite (proj1 (min_max_epu16_lane_aux 128 ltac:(lia) a b jr i Hi)).
      rewrite Ha, Hb by exact Hi. rewrite !nth_test_array by exact Hi.
      rewrite !Z.mod_small by apply iter_u16_range. reflexivity.
  - unfold test_mm512_max_epu16.
    erewrite binop_test16_vlen128 with
      (G := fun i => Z.max (iter_u16 iter (Z.of_nat i + 0)) (iter_u16 iter (Z.of_nat i + 5)));
      try apply length_test_array.
    + rewrite forallb_seq_true; [reflexivity|]. intros i Hi.
      rewrite !nth_test_array by exact Hi. apply Z.eqb_eq.
      destruct (Z.ltb_spec (iter_u16 iter (Z.of_nat i + 5)) (iter_u16 iter (Z.of_nat i + 0))); lia.
    + intros a b Ha Hb i Hi. rewrite get_epu16_lane by lia.
      rewrite (proj2 (min_max_epu16_lane_aux 128 ltac:(lia) a b jr i Hi)).
      rewrite Ha, Hb by exact Hi. rewrite !nth_test_array by exact Hi.
      rewrite !Z.mod_small by apply iter_u16_range. reflexivity.
Qed.

Lemma forallb_seq_ext (f g : nat -> bool) n :
  (forall i, (i < n)%nat -> f i = g i) -> forallb f (seq 0 n) = forallb g (seq 0 n).
Proof.
  intros H. apply eq_true_iff_eq. rewrite !forallb_forall.
  split; intros H' i Hi; pose proof Hi as Hi'; apply in_seq in Hi';
    [rewrite <- H | rewrite H]; (lia || apply H'; exact Hi).
Qed.

(** One lane of [test_mm512_avg_epu16]: [x = a_data[i]],
    [b_data[i] = (x + 1) mod 65536]. *)
Lemma avg_lane_ok x :
  0 <= x < 65536 ->
  (Z.shiftr (((x + (x + 1) mod 65536) mod 65536 + 1) mod 65536) 1 =?
   Z.shiftr (x + (x + 1) mod 65536 + 1) 1 mod 65536) = (x <? 32767).
Proof.
  intros Hx. rewrite !Z.shiftr_div_pow2 by lia. change (2 ^ 1) with 2.
  destruct (Z.eq_dec x 65535) as [-> | Hne]; [reflexivity|].
  rewrite (Z.mod_small (x + 1)) by lia.
  destruct (Z.ltb_spec x 32767) as [Hl | Hl].
  - apply Z.eqb_eq.
    rewrite (Z.mod_small (x + (x + 1))) by lia. rewrite (Z.mod_small (x + (x + 1) + 1)) by lia.
    rewrite Z.mod_small; [reflexivity|].
    split; [apply Z.div_pos | apply Z.div_lt_upper_bound]; lia.
  - apply Z.eqb_neq.
    destruct (Z.eq_dec x 32767) as [-> | Hne'].
    + intros H. vm_compute in H. discriminate.
    + replace ((x + (x + 1)) mod 65536) with (x + (x + 1) - 65536)
        by (apply Z.mod_unique with (q := 1); lia).
      rewrite (Z.mod_small (x + (x + 1) - 65536 + 1)) by lia.
      replace ((x + (x + 1) - 65536 + 1) / 2) with (x + 1 - 32768)
        by (apply Z.div_unique with (r := 0); lia).
      replace ((x + (x + 1) + 1) / 2) with (x + 1)
        by (apply Z.div_unique with (r := 0); lia).
      rewrite Z.mod_small by lia. lia.
Qed.

(** [test_mm512_avg_epu16] on a VLEN = 128 machine passes exactly when no
    lane value [a_data[i] = (iter + i) mod 65536] reaches 32767: beyond, the
    16-bit sum in [_mm512_avg_epu16] wraps and the lane differs from the
    expected [(a + b + 1) >> 1].  Every [iter] that [run_test] uses
    ([0 .. 9991]) passes. *)
Theorem avg_epu16_test_outcome (iter : Z) (ja jb jr : m512i) (jg : nat -> list Z) :
  test_mm512_avg_epu16 128 iter ja jb jr jg =
  Some (if forallb (fun i => (iter + Z.of_nat i) mod 65536 <? 32767) (seq 0 32)
        then TEST_SUCCESS else TEST_FAIL).
Proof.
  unfold test_mm512_avg_epu16.
  erewrite binop_test16_vlen128 with
    (G := fun i => Z.shiftr (((iter_u16 iter (Z.of_nat i + 0) + iter_u16 iter (Z.of_nat i + 1))
                               mod 65536 + 1) mod 65536) 1);
    try apply length_test_array.
  - f_equal. erewrite forallb_seq_ext; [reflexivity|]. intros i Hi.
    rewrite !nth_test_array by exact Hi. rewrite !iter_u16_mod.
    replace ((iter + (Z.of_nat i + 1)) mod 65536) with (((iter + Z.of_nat i) mod 65536 + 1) mod 65536)
      by (rewrite Z.add_mod_idemp_l by lia; f_equal; lia).
    rewrite Z.add_0_r. apply avg_lane_ok, Z.mod_pos_bound. lia.
  - intros a b Ha Hb i Hi. rewrite get_epu16_lane by lia.
    rewrite avg_epu16_lane by lia.
    rewrite Ha, Hb by exact Hi. rewrite !nth_test_array by exact Hi.
    rewrite !(Z.mod_small (iter_u16 _ _)) by apply iter_u16_range. reflexivity.
Qed.

Section MaskTests.

Lemma bits_to_Z_full l :
  (bits_to_Z l =? 2 ^ Z.of_nat (length l) - 1) = forallb (fun b => b) l.
Proof.
  assert (forall l, 0 <= bits_to_Z l) as Hpos.
  { induction l0 as [|b r IH]; cbn [bits_to_Z]; [lia|]. destruct b; lia. }
  induction l as [|b r IH]; [reflexivity|].
  cbn [bits_to_Z length forallb]. rewrite Nat2Z.inj_succ, Z.pow_succ_r by lia.
  pose proof (Hpos r).
  destruct b; cbn [andb].
  - rewrite <- IH. destruct (Z.eqb_spec (bits_to_Z r) (2 ^ Z.of_nat (length r) - 1));
      [apply Z.eqb_eq; lia | apply Z.eqb_neq; lia].
  - apply Z.eqb_neq. lia.
Qed.

Lemma forallb_id_map {A} (f : A -> bool) l : forallb (fun b => b) (map f l) = forallb f l.
Proof. induction l as [|x r IH]; [reflexivity|]. cbn. rewrite IH. reflexivity. Qed.

Lemma forallb_map_comp {A B} (f : B -> bool) (g : A -> B) l :
  forallb f (map g l) = forallb (fun x => f (g x)) l.
Proof. induction l as [|x r IH]; [reflexivity|]. cbn. rewrite IH. reflexivity. Qed.

Lemma map_combine_swap {A B C} (f : A * B -> C) (xs : list A) (ys : list B) :
  map f (combine xs ys) = map (fun p => f (snd p, fst p)) (combine ys xs).
Proof.
  revert ys. induction xs as [|x xs IH]; intros [|y ys]; try reflexivity.
  cbn. rewrite IH. reflexivity.
Qed.

(** The outcome of [mask_test16] for [_mm512_cmp*_epi16_mask]-shaped
    comparisons on loaded [int16_t] arrays. *)
Lemma mask_test16_vlen128 (rel : Z * Z -> bool) cmp a_data b_data ja jb :
  length a_data = 32%nat -> length b_data = 32%nat ->
  (forall a b, cmp a b = vsm_u32 (map rel (combine (vle16_i16 32 b) (vle16_i16 32 a)))) ->
  mask_test16 128 cmp a_data b_data ja jb =
  Some (if forallb (fun i => rel (to_i16 (nth i b_data 0 mod 65536), to_i16 (nth i a_data 0 mod 65536)))
                   (seq 0 32)
        then TEST_SUCCESS else TEST_FAIL).
Proof.
  intros Ha Hb Hc. unfold mask_test16.
  destruct (loadu_epi16_array16 a_data ja Ha) as [a [-> Ha']].
  destruct (loadu_epi16_array16 b_data jb Hb) as [b [-> Hb']].
  rewrite Hc. unfold vsm_u32.
  rewrite firstn_all2 by (rewrite length_map, length_combine, !length_vle16_i16; lia).
  replace 4294967295 with (2 ^ Z.of_nat (length (map rel (combine (vle16_i16 32 b) (vle16_i16 32 a)))) - 1)
    by (rewrite length_map, length_combine, !length_vle16_i16; reflexivity).
  rewrite bits_to_Z_full, forallb_id_map.
  replace (forallb rel (combine (vle16_i16 32 b) (vle16_i16 32 a))) with
    (forallb (fun i => rel (to_i16 (nth i b_data 0 mod 65536), to_i16 (nth i a_data 0 mod 65536)))
             (seq 0 32)).
  - destruct (forallb _ (seq 0 32)); reflexivity.
  - replace (combine (vle16_i16 32 b) (vle16_i16 32 a)) with
      (map (fun i => (to_i16 (nth i b_data 0 mod 65536), to_i16 (nth i a_data 0 mod 65536))) (seq 0 32)).
    + symmetry. apply forallb_map_comp.
    + apply nth_ext with (d := (0, 0)) (d' := (0, 0)).
      * rewrite length_map, length_combine, !length_vle16_i16, length_seq. reflexivity.
      * intros i Hi. rewrite length_map, length_seq in Hi.
        rewrite nth_map_seq by exact Hi.
        rewrite nth_combine_same by (rewrite !length_vle16_i16; reflexivity).
        rewrite !nth_vle16_i16 by exact Hi. unfold get_i16. rewrite Ha', Hb' by exact Hi.
        reflexivity.
Qed.

(** One lane of [test_mm512_cmpgt_epi16_mask]: [b_data[i] = (int16_t)x],
    [a_data[i] = (int16_t)(x + 10)]. *)
Lemma cmpgt_lane_ok x :
  0 <= x < 65536 ->
  (to_i16 x <? to_i16 ((x + 10) mod 65536)) = negb ((32758 <=? x) && (x <=? 32767)).
Proof.
  intros Hx. destruct (Z_lt_le_dec x 65526) as [Hs | Hs].
  - rewrite (Z.mod_small (x + 10)) by lia. unfold to_i16.
    destruct (Z.ltb_spec x 32768), (Z.ltb_spec (x + 10) 32768),
             (Z.leb_spec 32758 x), (Z.leb_spec x 32767);
      cbn [andb negb]; first [apply Z.ltb_lt; lia | apply Z.ltb_ge; lia].
  - replace ((x + 10) mod 65536) with (x + 10 - 65536) by (apply Z.mod_unique with (q := 1); lia).
    unfold to_i16.
    destruct (Z.ltb_spec x 32768), (Z.ltb_spec (x + 10 - 65536) 32768),
             (Z.leb_spec 32758 x), (Z.leb_spec x 32767);
      cbn [andb negb]; first [apply Z.ltb_lt; lia | apply Z.ltb_ge; lia].
Qed.

End MaskTests.

(** [test_mm512_cmpeq_epi16_mask] passes for every iteration index on a
    VLEN = 128 machine; [test_mm512_cmpgt_epi16_mask] passes exactly when no
    lane value [(iter + i) mod 65536] lies in [32758 .. 32767], where
    [(int16_t)(iter + i + 10)] wraps to a negative number and is not greater
    than [(int16_t)(iter + i)]. *)
Theorem cmp_epi16_tests_outcome (iter : Z) (ja jb : m512i) :
  test_mm512_cmpeq_epi16_mask 128 iter ja jb = Some TEST_SUCCESS /\
  test_mm512_cmpgt_epi16_mask 128 iter ja jb =
  Some (if forallb (fun i => negb ((32758 <=? (iter + Z.of_nat i) mod 65536) &&
                                   ((iter + Z.of_nat i) mod 65536 <=? 32767))) (seq 0 32)
        then TEST_SUCCESS else TEST_FAIL).
Proof.
  split.
  - unfold test_mm512_cmpeq_epi16_mask.
    rewrite mask_test16_vlen128 with (rel := fun p => snd p =? fst p);
      try apply length_test_array;
      [| intros a b; unfold _mm512_cmpeq_epi16_mask, vmseq_vv;
         rewrite vsetvl_fits by (apply vlmax_e16m4; lia); f_equal; rewrite map_combine_swap; reflexivity].
    rewrite forallb_seq_true; [reflexivity|]. intros i Hi. cbn [fst snd]. apply Z.eqb_refl.
  - unfold test_mm512_cmpgt_epi16_mask.
    rewrite mask_test16_vlen128 with (rel := fun p => fst p <? snd p);
      try apply length_test_array;
      [| intros a b; unfold _mm512_cmpgt_epi16_mask, vmslt_vv;
         rewrite vsetvl_fits by (apply vlmax_e16m4; lia); reflexivity].
    f_equal. erewrite forallb_seq_ext; [reflexivity|]. intros i Hi. cbn [fst snd].
    rewrite !nth_test_array by exact Hi. unfold iter_i16.
    rewrite !to_i16_mod_id by (apply Z.mod_pos_bound; lia).
    rewrite !(Z.mod_mod_divide _ (2 ^ 32) 65536) by (exists 65536; reflexivity).
    replace ((iter + (Z.of_nat i + 10)) mod 65536) with (((iter + Z.of_nat i) mod 65536 + 10) mod 65536)
      by (rewrite Z.add_mod_idemp_l by lia; f_equal; lia).
    rewrite Z.add_0_r. apply cmpgt_lane_ok, Z.mod_pos_bound. lia.
Qed.

(** * The load and store tests of the AVX-512 suite *)

Section LoadStoreTests.

(** Unsigned lane [i] of the bytes written by [_mm512_storeu_epi16] into a
    64-byte object. *)
Lemma get_u16_stored_bytes (a dst : list Z) i :
  (i < 32)%nat ->
  get_u16 (map (fun j => if (j <? 64)%nat then get_u8 a j else nth j dst 0) (seq 0 64)) i =
  get_u16 a i.
Proof.
  intros Hi.
  assert (forall j, (j < 64)%nat ->
            get_u8 (map (fun j => if (j <? 64)%nat then get_u8 a j else nth j dst 0)
                        (seq 0 64)) j = get_u8 a j) as Hb.
  { intros j Hj. unfold get_u8 at 1. rewrite nth_map_seq by exact Hj.
    replace (j <? 64)%nat with true by (symmetry; apply Nat.ltb_lt; exact Hj).
    unfold get_u8. apply Z.mod_mod. lia. }
  unfold get_u16. rewrite !Hb by lia. reflexivity.
Qed.

(** A lane loaded from the [int16_t] test array [test_data] holds its value. *)
Lemma loaded_test_lane (a : m512i) iter i :
  (i < 32)%nat ->
  (forall i, (i < 32)%nat -> get_u16 a i = nth i (test_array iter_i16 iter 0) 0 mod 65536) ->
  (get_i16 a i =? nth i (test_array iter_i16 iter 0) 0) = true.
Proof.
  intros Hi Ha. rewrite nth_test_array in * by exact Hi.
  rewrite (get_i16_iter a iter (Z.of_nat i + 0) i); [apply Z.eqb_refl|].
  rewrite Ha by exact Hi. rewrite nth_test_array by exact Hi. reflexivity.
Qed.

Lemma vlmax_e16m4_large vlen : (256 <= vlen)%nat -> (64 <= vlmax vlen 16 4)%nat.
Proof.
  intros Hv. unfold vlmax.
  apply Nat.le_trans with (4 * 256 / 16)%nat; [reflexivity|].
  apply Nat.Div0.div_le_mono. lia.
Qed.

End LoadStoreTests.

(** [test_mm512_loadu_epi16] and [test_mm512_storeu_epi16] pass for every
    iteration index on a VLEN = 128 machine. *)
Theorem loadu_storeu_epi16_tests_pass (iter : Z) (jl : m512i) (jg : nat -> list Z) (jd : list Z) :
  test_mm512_loadu_epi16 128 iter jl jg = Some TEST_SUCCESS /\
  test_mm512_storeu_epi16 128 iter jl jd = Some TEST_SUCCESS.
Proof.
  destruct (loadu_epi16_array16 (test_array iter_i16 iter 0) jl (length_test_array _ _ _))
    as [a [Hl Ha]].
  split.
  - unfold test_mm512_loadu_epi16. cbv zeta. rewrite Hl.
    rewrite (check_lanes_some _ _ (fun i => get_i16 a i)).
    + rewrite forallb_seq_true; [reflexivity|]. intros i Hi. apply loaded_test_lane; assumption.
    + intros i Hi. apply in_seq in Hi. apply get_epi16_lane; lia.
  - unfold test_mm512_storeu_epi16. cbv zeta. rewrite Hl.
    rewrite storeu_epi16_bytes_aux by lia. rewrite length_local64. cbn [Nat.leb].
    rewrite (check_lanes_some _ _ (fun i => get_i16 a i)).
    + rewrite forallb_seq_true; [reflexivity|]. intros i Hi. apply loaded_test_lane; assumption.
    + intros i Hi. apply in_seq in Hi. unfold get_i16.
      rewrite get_u16_stored_bytes by lia. reflexivity.
Qed.

(** On a machine with VLEN >= 256, [_mm512_loadu_epi16] reads past the end
    of the 64-byte [test_data] array, so neither test has a defined outcome. *)
Theorem loadu_storeu_epi16_tests_wide (vlen : nat) (Hv : (256 <= vlen)%nat)
  (iter : Z) (jl : m512i) (jg : nat -> list Z) (jd : list Z) :
  test_mm512_loadu_epi16 vlen iter jl jg = None /\
  test_mm512_storeu_epi16 vlen iter jl jd = None.
Proof.
  assert (_mm512_loadu_epi16 vlen (array16 (test_array iter_i16 iter 0)) jl = None) as Hl.
  { unfold _mm512_loadu_epi16. rewrite length_array16, length_test_array.
    pose proof (vlmax_e16m4_large vlen Hv).
    replace (2 * vlmax vlen 16 4 <=? 2 * 32)%nat with false
      by (symmetry; apply Nat.leb_gt; lia).
    reflexivity. }
  unfold test_mm512_loadu_epi16, test_mm512_storeu_epi16. cbv zeta. rewrite Hl.
  split; reflexivity.
Qed.

Lemma loadu_storeu_epi16_tests_wide_witness :
  (256 <= 256)%nat /\
  test_mm512_loadu_epi16 256 0 (repeat 0 64) (fun _ => repeat 0 64) = None /\
  test_mm512_storeu_epi16 256 0 (repeat 0 64) (repeat 0 64) = None.
Proof. split; [lia|]. apply (loadu_storeu_epi16_tests_wide 256); lia. Defined.

(** * Command line and suite selection *)

Section DriverExtras.

Variable suite_count : TestSuite -> nat.
Variable suite_test_name : TestSuite -> nat -> String.string.
Variable run_one : TestSuite -> nat -> result_t.

Lemma count_result_shape s i t :
  t_ran (count_result run_one s i t) = t_ran t ++ [(s, i)] /\
  tally_total (count_result run_one s i t) = S (tally_total t).
Proof. unfold count_result, tally_total. destruct (run_one s i); cbn; (split; [reflexivity | lia]). Qed.

Lemma fold_count_shape s idxs t :
  t_ran (fold_left (fun t i => count_result run_one s i t) idxs t) = t_ran t ++ map (pair s) idxs /\
  tally_total (fold_left (fun t i => count_result run_one s i t) idxs t) =
  (tally_total t + length idxs)%nat.
Proof.
  revert t. induction idxs as [|i idxs IH]; intros t.
  - cbn. rewrite app_nil_r. split; [reflexivity | lia].
  - cbn [fold_left]. destruct (IH (count_result run_one s i t)) as [H1 H2].
    destruct (count_result_shape s i t) as [E1 E2].
    rewrite H1, H2, E1, E2, <- app_assoc. cbn [length map app]. split; [reflexivity | lia].
Qed.

Lemma all_step_shape run_all idx name t s :
  s <> ALL ->
  exists t', all_suites_step suite_count suite_test_name run_one run_all idx name (Some t) s = Some t' /\
  t_ran t' = t_ran t ++ map (pair s)
               (sel_or_nil (all_suites_selection suite_count suite_test_name run_all idx name s)) /\
  tally_total t' = (tally_total t +
     length (sel_or_nil (all_suites_selection suite_count suite_test_name run_all idx name s)))%nat.
Proof.
  intros Hs. unfold all_suites_step.
  destruct (all_suites_selection _ _ _ _ _ _) as [[|i l]|]; cbn [sel_or_nil map length];
    try (eexists; split; [reflexivity|]; rewrite app_nil_r; split; [reflexivity | lia]).
  unfold run_single_suite_tests.
  destruct (fold_count_shape s (i :: l) tally0) as [H1 H2].
  destruct s; try congruence; (eexists; split; [reflexivity|]);
    unfold add_tally, tally_total, tally0 in *; cbn [t_pass t_fail t_skip t_ran length] in *;
    rewrite H1; cbn [t_ran app]; (split; [reflexivity | lia]).
Qed.

Lemma run_all_suites_shape run_all idx name :
  exists t, run_all_suites_tests suite_count suite_test_name run_one run_all idx name = Some t /\
  t_ran t = map (pair SSE) (sel_or_nil (all_suites_selection suite_count suite_test_name run_all idx name SSE)) ++
            map (pair AVX) (sel_or_nil (all_suites_selection suite_count suite_test_name run_all idx name AVX)) /\
  tally_total t = (length (sel_or_nil (all_suites_selection suite_count suite_test_name run_all idx name SSE)) +
                   length (sel_or_nil (all_suites_selection suite_count suite_test_name run_all idx name AVX)))%nat.
Proof.
  unfold run_all_suites_tests. cbn [fold_left].
  destruct (all_step_shape run_all idx name tally0 SSE) as [t1 [-> [R1 T1]]]; [discriminate|].
  destruct (all_step_shape run_all idx name t1 AVX) as [t2 [-> [R2 T2]]]; [discriminate|].
  exists t2. split; [reflexivity|]. rewrite R2, T2, R1, T1. split; reflexivity.
Qed.

(** With [0 < count <= 2^32], the [uint32_t] bound [count - 1] does not wrap. *)
Lemma is_valid_index_lt s idx :
  s <> ALL -> (0 < suite_count s)%nat -> (Z.of_nat (suite_count s) <= 2 ^ 32) -> 0 <= idx ->
  is_valid_single_suite_index suite_count s idx = (idx <? Z.of_nat (suite_count s)).
Proof.
  intros Hs H0 H1 Hi. unfold is_valid_single_suite_index, get_single_suite_test_count.
  replace (idx <? 0) with false by (symmetry; apply Z.ltb_ge; lia).
  assert (suite_count s = match s with SSE | AVX => suite_count s | ALL => 0%nat end) as E
    by (destruct s; congruence).
  rewrite <- E. rewrite Z.mod_small by lia.
  destruct (Z.leb_spec idx (Z.of_nat (suite_count s) - 1)), (Z.ltb_spec idx (Z.of_nat (suite_count s)));
    reflexivity || lia.
Qed.

Lemma find_matching_spec s pat i :
  In i (find_single_suite_matching_tests suite_count suite_test_name s pat) <->
  (i < get_single_suite_test_count suite_count s)%nat /\
  str_contains (to_lower pat) (to_lower (suite_test_name s i)) = true.
Proof.
  unfold find_single_suite_matching_tests. rewrite filter_In, in_seq. split; intros [H1 H2]; split; (lia || assumption).
Qed.

End DriverExtras.

Section SelectionLemmas.

Variable suite_count : TestSuite -> nat.
Variable suite_test_name : TestSuite -> nat -> String.string.
Variable run_one : TestSuite -> nat -> result_t.

Hypothesis counts_ok : forall s, s <> ALL -> (0 < suite_count s)%nat /\ Z.of_nat (suite_count s) <= 2 ^ 32.

Lemma count_single s : s <> ALL -> get_single_suite_test_count suite_count s = suite_count s.
Proof. destruct s; reflexivity || congruence. Qed.

Lemma sel_all_chosen o s :
  s <> ALL ->
  sel_or_nil (all_suites_selection suite_count suite_test_name (run_all_tests o)
                (target_test_index o) (target_test_name o) s) =
  chosen_tests suite_count suite_test_name o s.
Proof.
  intros Hs. unfold all_suites_selection, chosen_tests.
  rewrite count_single by exact Hs.
  destruct (run_all_tests o); [reflexivity|].
  destruct (Z.leb_spec 0 (target_test_index o)).
  - destruct (counts_ok s Hs).
    rewrite is_valid_index_lt by (assumption || lia).
    destruct (_ <? _); reflexivity.
  - destruct (String.eqb (target_test_name o) String.EmptyString); cbn [negb]; [reflexivity|].
    destruct (find_single_suite_matching_tests _ _ _ _); reflexivity.
Qed.

Lemma single_sel_chosen o s :
  s <> ALL ->
  match single_suite_selection suite_count suite_test_name o s with
  | Some l => l = chosen_tests suite_count suite_test_name o s
  | None => run_all_tests o = false /\ chosen_tests suite_count suite_test_name o s = [] /\
            (0 <= target_test_index o \/ target_test_name o <> String.EmptyString)
  end.
Proof.
  intros Hs. unfold single_suite_selection, chosen_tests.
  rewrite count_single by exact Hs.
  destruct (run_all_tests o); [reflexivity|].
  destruct (Z.leb_spec 0 (target_test_index o)).
  - destruct (counts_ok s Hs).
    rewrite is_valid_index_lt by (assumption || lia).
    destruct (_ <? _); [reflexivity|]. split; [reflexivity|]. split; [reflexivity|]. left; lia.
  - destruct (String.eqb (target_test_name o) String.EmptyString) eqn:En; cbn [negb]; [reflexivity|].
    destruct (find_single_suite_matching_tests _ _ _ _); [|reflexivity].
    split; [reflexivity|]. split; [reflexivity|]. right. intros E. rewrite E in En. discriminate.
Qed.

Lemma main_all_shape o :
  target_suite o = ALL -> show_help o = false -> list_tests o = false ->
  exists t, main suite_count suite_test_name run_one o =
            (if (0 <? t_fail t)%nat then EXIT_FAILURE else EXIT_SUCCESS, Some t) /\
  t_ran t = map (pair SSE) (chosen_tests suite_count suite_test_name o SSE) ++
            map (pair AVX) (chosen_tests suite_count suite_test_name o AVX) /\
  tally_total t = length (t_ran t).
Proof.
  intros Hs Hh Hl. unfold main, run_phase. rewrite Hh, Hl, Hs.
  destruct (run_all_suites_shape suite_count suite_test_name run_one (run_all_tests o)
              (target_test_index o) (target_test_name o)) as [t [-> [R T]]].
  exists t. split; [reflexivity|].
  rewrite !sel_all_chosen in R, T by discriminate.
  split; [exact R|]. rewrite T, R, length_app, !length_map. reflexivity.
Qed.

Lemma main_single_shape o s :
  target_suite o = s -> s <> ALL -> show_help o = false -> list_tests o = false ->
  match main suite_count suite_test_name run_one o with
  | (e, Some t) =>
      e = (if (0 <? t_fail t)%nat then EXIT_FAILURE else EXIT_SUCCESS) /\
      t_ran t = map (pair s) (chosen_tests suite_count suite_test_name o s) /\
      tally_total t = length (t_ran t)
  | (e, None) =>
      e = EXIT_FAILURE /\ run_all_tests o = false /\
      chosen_tests suite_count suite_test_name o s = [] /\
      (0 <= target_test_index o \/ target_test_name o <> String.EmptyString)
  end.
Proof.
  intros Hs Hne Hh Hl. unfold main, run_phase. rewrite Hh, Hl, Hs.
  pose proof (single_sel_chosen o s Hne) as Sel.
  destruct (fold_count_shape run_one s (chosen_tests suite_count suite_test_name o s) tally0) as [R T].
  unfold tally_total, tally0 in R, T. cbn [t_ran app t_pass t_fail t_skip] in R, T.
  destruct s; [| | congruence];
    (destruct (single_suite_selection _ _ _ _) as [l|];
     [| cbv beta iota; split; [reflexivity | exact Sel]]);
    subst l; unfold run_single_suite_tests, tally0; cbv beta iota;
    (split; [reflexivity|]; split; [exact R|]);
    rewrite R, length_map; unfold tally_total; lia.
Qed.

End SelectionLemmas.

Section ParseLemmas.

(** The loop of [parse_arguments] consumes its arguments from the front:
    once a prefix has been parsed, the rest is parsed from the options it
    built. *)
Lemma parse_loop_app pre : forall post o o',
  parse_loop pre o = Parsed o' -> parse_loop (pre ++ post) o = parse_loop post o'.
Proof.
  induction pre as [pre IH] using
    (well_founded_induction (well_founded_ltof _ (@length String.string))).
  unfold ltof in IH.
  intros post o o' H. destruct pre as [|arg rest].
  - cbn in H |- *. congruence.
  - cbn [app parse_loop] in H |- *.
    destruct (_ || _).
    + destruct rest as [|s r]; [discriminate|]. cbn [app].
      destruct (all_digits s); [|discriminate].
      destruct (_ <=? _); [|discriminate].
      apply IH; [cbn; lia | exact H].
    + destruct (_ || _).
      * destruct rest as [|s r]; [discriminate|]. cbn [app].
        destruct (str_to_test_suite s); [|discriminate].
        apply IH; [cbn; lia | exact H].
      * repeat (destruct (_ || _); [apply IH; [cbn; lia | exact H]|]).
        destruct (not_option arg); [|discriminate].
        apply IH; [cbn; lia | exact H].
Qed.

Lemma decimal_value_acc_nonneg s : forall acc,
  all_digits s = true -> 0 <= acc -> 0 <= decimal_value_acc acc s.
Proof.
  induction s as [|c s IH]; intros acc Hs Hacc; [exact Hacc|].
  cbn [all_digits] in Hs. apply andb_prop in Hs as [Hc Hs].
  unfold is_digit in Hc. apply andb_prop in Hc as [Hc _]. apply Nat.leb_le in Hc.
  cbn [decimal_value_acc]. apply IH; [exact Hs | lia].
Qed.

Lemma parse_loop_inv args : forall o o',
  parse_inv o -> parse_loop args o = Parsed o' -> parse_inv o'.
Proof.
  induction args as [args IH] using
    (well_founded_induction (well_founded_ltof _ (@length String.string))).
  unfold ltof in IH.
  intros o o' Ho H. destruct args as [|arg rest].
  - cbn in H. congruence.
  - cbn [parse_loop] in H.
    destruct (_ || _).
    + destruct rest as [|s r]; [discriminate|].
      destruct (all_digits s) eqn:Hs; [|discriminate].
      destruct (Z.leb_spec (decimal_value s) 2147483647); [|discriminate].
      refine (IH r _ _ _ _ H); [cbn; lia|].
      pose proof (decimal_value_acc_nonneg s 0 Hs ltac:(lia)).
      unfold parse_inv, set_index, decimal_value in *; cbn [target_test_index run_all_tests].
      split; [right; lia | discriminate].
    + destruct (_ || _).
      * destruct rest as [|s r]; [discriminate|].
        destruct (str_to_test_suite s); [|discriminate].
        refine (IH r _ _ _ _ H); [cbn; lia|]. exact Ho.
      * repeat (destruct (_ || _); [refine (IH rest _ _ _ _ H); [cbn; lia | exact Ho]|]).
        destruct (not_option arg); [|discriminate].
        refine (IH rest _ _ _ _ H); [cbn; lia|].
        unfold parse_inv, set_name in *; cbn [target_test_index run_all_tests].
        split; [apply Ho | discriminate].
Qed.

End ParseLemmas.

Section FindLemmas.

Lemma ascii_tolower_idem c : ascii_tolower (ascii_tolower c) = ascii_tolower c.
Proof.
  unfold ascii_tolower.
  destruct ((65 <=? Ascii.nat_of_ascii c)%nat && (Ascii.nat_of_ascii c <=? 90)%nat) eqn:E.
  - apply andb_prop in E as [E1 E2]. apply Nat.leb_le in E1, E2.
    rewrite Ascii.nat_ascii_embedding by lia.
    replace ((65 <=? Ascii.nat_of_ascii c + 32)%nat && (Ascii.nat_of_ascii c + 32 <=? 90)%nat)
      with false; [reflexivity|].
    symmetry. apply andb_false_intro2. apply Nat.leb_gt. lia.
  - rewrite E. reflexivity.
Qed.

Lemma to_lower_idem s : to_lower (to_lower s) = to_lower s.
Proof. induction s as [|c s IH]; [reflexivity|]. cbn. rewrite ascii_tolower_idem, IH. reflexivity. Qed.

Lemma filter_seq_sorted (f : nat -> bool) n : forall a, StronglySorted lt (filter f (seq a n)).
Proof.
  induction n as [|n IH]; intros a; [constructor|].
  cbn [seq filter]. destruct (f a); [|apply IH].
  constructor; [apply IH|].
  apply Forall_forall. intros x Hx. apply filter_In in Hx as [Hx _]. apply in_seq in Hx. lia.
Qed.

End FindLemmas.

(** [find_single_suite_matching_tests] returns, in increasing order, exactly
    the indices below the suite's test count whose lower-cased name contains
    the lower-cased pattern; lower-casing the pattern beforehand changes
    nothing. *)
Theorem find_matching_tests_spec (suite_count : TestSuite -> nat)
  (suite_test_name : TestSuite -> nat -> String.string) (s : TestSuite) (pat : String.string) :
  (forall i, In i (find_single_suite_matching_tests suite_count suite_test_name s pat) <->
     (i < get_single_suite_test_count suite_count s)%nat /\
     str_contains (to_lower pat) (to_lower (suite_test_name s i)) = true) /\
  StronglySorted lt (find_single_suite_matching_tests suite_count suite_test_name s pat) /\
  find_single_suite_matching_tests suite_count suite_test_name s (to_lower pat) =
  find_single_suite_matching_tests suite_count suite_test_name s pat.
Proof.
  split; [intros i; apply find_matching_spec|]. split.
  - apply filter_seq_sorted.
  - unfold find_single_suite_matching_tests. rewrite to_lower_idem. reflexivity.
Qed.

(** With no command-line argument the program runs every SSE test, then
    every AVX test, each once and in index order, and counts each of them
    once as passed, failed or skipped. *)
Theorem no_arguments_runs_all_tests (suite_count : TestSuite -> nat)
  (suite_test_name : TestSuite -> nat -> String.string) (run_one : TestSuite -> nat -> result_t) :
  exists t, run_program suite_count suite_test_name run_one [] =
            Some (if (0 <? t_fail t)%nat then EXIT_FAILURE else EXIT_SUCCESS, Some t) /\
  t_ran t = map (pair SSE) (seq 0 (suite_count SSE)) ++ map (pair AVX) (seq 0 (suite_count AVX)) /\
  tally_total t = (suite_count SSE + suite_count AVX)%nat.
Proof.
  destruct (run_all_suites_shape suite_count suite_test_name run_one true (-1) String.EmptyString)
    as [t [Ht [R T]]].
  exists t. cbn [sel_or_nil all_suites_selection get_single_suite_test_count] in R, T.
  rewrite !length_seq in T.
  split; [|split; assumption].
  unfold run_program, parse_arguments, main, run_phase. cbn [parse_loop default_options
    show_help list_tests target_suite run_all_tests target_test_index target_test_name].
  rewrite Ht. reflexivity.
Qed.

(** With [--suite all] ([target_suite = ALL]), [main] runs the selected
    tests of the SSE suite and then those of the AVX suite: all of them, the
    test at [--index] in each suite that has it, or the tests whose name
    contains [TEST_NAME]; it never returns before running. *)
Theorem all_suites_main_runs (suite_count : TestSuite -> nat)
  (suite_test_name : TestSuite -> nat -> String.string) (run_one : TestSuite -> nat -> result_t)
  (Hc : forall s, s <> ALL -> (0 < suite_count s)%nat /\ Z.of_nat (suite_count s) <= 2 ^ 32)
  (o : TestOptions) (Hs : target_suite o = ALL) (Hh : show_help o = false)
  (Hl : list_tests o = false) :
  exists t, main suite_count suite_test_name run_one o =
            (if (0 <? t_fail t)%nat then EXIT_FAILURE else EXIT_SUCCESS, Some t) /\
  t_ran t = map (pair SSE) (chosen_tests suite_count suite_test_name o SSE) ++
            map (pair AVX) (chosen_tests suite_count suite_test_name o AVX) /\
  tally_total t = length (t_ran t).
Proof. exact (main_all_shape suite_count suite_test_name run_one Hc o Hs Hh Hl). Qed.

(** For a single suite [s] ([--suite sse] or [--suite avx]), [main] either
    runs the selected tests of [s] in order (a valid [--index], the tests
    matching [TEST_NAME], or all of them), or returns [EXIT_FAILURE] without
    running any: when the index is out of range or no test name matches. *)
Theorem single_suite_main_runs (suite_count : TestSuite -> nat)
  (suite_test_name : TestSuite -> nat -> String.string) (run_one : TestSuite -> nat -> result_t)
  (Hc : forall s, s <> ALL -> (0 < suite_count s)%nat /\ Z.of_nat (suite_count s) <= 2 ^ 32)
  (o : TestOptions) (s : TestSuite) (Hs : target_suite o = s) (Hne : s <> ALL)
  (Hh : show_help o = false) (Hl : list_tests o = false) :
  match main suite_count suite_test_name run_one o with
  | (e, Some t) =>
      e = (if (0 <? t_fail t)%nat then EXIT_FAILURE else EXIT_SUCCESS) /\
      t_ran t = map (pair s) (chosen_tests suite_count suite_test_name o s) /\
      tally_total t = length (t_ran t)
  | (e, None) =>
      e = EXIT_FAILURE /\ run_all_tests o = false /\
      chosen_tests suite_count suite_test_name o s = [] /\
      (0 <= target_test_index o \/ target_test_name o <> String.EmptyString)
  end.
Proof. exact (main_single_shape suite_count suite_test_name run_one Hc o s Hs Hne Hh Hl). Qed.

(** A selection that matches no test (an index beyond both suites, or a name
    found in neither) makes [--suite all] run nothing and exit with
    success, while the same selection on a single suite exits with failure. *)
Theorem unmatched_selection_all_vs_single (suite_count : TestSuite -> nat)
  (suite_test_name : TestSuite -> nat -> String.string) (run_one : TestSuite -> nat -> result_t)
  (Hc : forall s, s <> ALL -> (0 < suite_count s)%nat /\ Z.of_nat (suite_count s) <= 2 ^ 32)
  (o : TestOptions) (Hr : run_all_tests o = false) (Hh : show_help o = false)
  (Hl : list_tests o = false)
  (Hsel : (0 <= target_test_index o /\
           forall s, s <> ALL -> Z.of_nat (suite_count s) <= target_test_index o) \/
          (target_test_index o < 0 /\ target_test_name o <> String.EmptyString /\
           forall s, s <> ALL ->
             find_single_suite_matching_tests suite_count suite_test_name s (target_test_name o) = [])) :
  main suite_count suite_test_name run_one (set_suite ALL o) = (EXIT_SUCCESS, Some tally0) /\
  (forall s, s <> ALL -> main suite_count suite_test_name run_one (set_suite s o) = (EXIT_FAILURE, None)).
Proof.
  assert (forall s, s <> ALL -> chosen_tests suite_count suite_test_name o s = []) as Hch.
  { intros s Hs. unfold chosen_tests. rewrite Hr.
    destruct Hsel as [[H0 H1] | [H0 [H1 H2]]].
    - specialize (H1 s Hs). destruct (Z.leb_spec 0 (target_test_index o)); [|lia].
      destruct (Z.ltb_spec (target_test_index o) (Z.of_nat (suite_count s))); [lia | reflexivity].
    - destruct (Z.leb_spec 0 (target_test_index o)); [lia|].
      destruct (String.eqb (target_test_name o) String.EmptyString); [reflexivity|].
      apply H2, Hs. }
  split.
  - destruct (main_all_shape suite_count suite_test_name run_one Hc (set_suite ALL o))
      as [t [E [R T]]]; try assumption; try reflexivity.
    rewrite E. unfold chosen_tests in R; cbn [set_suite run_all_tests target_test_index
      target_test_name] in R; fold (chosen_tests suite_count suite_test_name o SSE) in R;
      fold (chosen_tests suite_count suite_test_name o AVX) in R.
    rewrite !Hch in R by discriminate. cbn in R.
    rewrite R in T. unfold tally_total in T. cbn in T.
    destruct t as [p f k r]. cbn in R, T |- *. subst r.
    assert (p = 0%nat /\ f = 0%nat /\ k = 0%nat) as [-> [-> ->]] by lia. reflexivity.
  - intros s Hs. unfold main, run_phase. cbn [set_suite show_help list_tests target_suite].
    rewrite Hh, Hl.
    assert (single_suite_selection suite_count suite_test_name (set_suite s o) s = None) as Sel.
    { unfold single_suite_selection. cbn [set_suite run_all_tests target_test_index target_test_name].
      rewrite Hr. destruct Hsel as [[H0 H1] | [H0 [H1 H2]]].
      - destruct (Z.leb_spec 0 (target_test_index o)); [|lia].
        destruct (Hc s Hs). specialize (H1 s Hs).
        rewrite (is_valid_index_lt suite_count s) by (assumption || lia).
        destruct (Z.ltb_spec (target_test_index o) (Z.of_nat (suite_count s))); [lia | reflexivity].
      - destruct (Z.leb_spec 0 (target_test_index o)); [lia|].
        destruct (String.eqb (target_test_name o) String.EmptyString) eqn:En.
        + apply String.eqb_eq in En. contradiction.
        + cbn [negb]. rewrite H2 by exact Hs. reflexivity. }
    destruct s; [| | congruence]; rewrite Sel; reflexivity.
Qed.

(** An argument error makes [parse_arguments] end the program with
    [EXIT_FAILURE] before any test runs, whatever the arguments before it
    (a [--help] included): [--index] or [--suite] without a value, an
    [--index] value with a non-digit character, an unknown suite name, or
    an unknown option starting with ['-']. *)
Theorem parse_arguments_exit_failure (suite_count : TestSuite -> nat)
  (suite_test_name : TestSuite -> nat -> String.string) (run_one : TestSuite -> nat -> result_t)
  (pre : list String.string) (o : TestOptions) (Hpre : parse_arguments pre = Parsed o) :
  (forall flag, In flag (index_flags ++ suite_flags) ->
     run_program suite_count suite_test_name run_one (pre ++ [flag]) = Some (EXIT_FAILURE, None)) /\
  (forall flag s rest, In flag index_flags -> all_digits s = false ->
     run_program suite_count suite_test_name run_one (pre ++ flag :: s :: rest) =
     Some (EXIT_FAILURE, None)) /\
  (forall flag s rest, In flag suite_flags -> str_to_test_suite s = None ->
     run_program suite_count suite_test_name run_one (pre ++ flag :: s :: rest) =
     Some (EXIT_FAILURE, None)) /\
  (forall arg rest, not_option arg = false -> ~ In arg known_flags ->
     run_program suite_count suite_test_name run_one (pre ++ arg :: rest) =
     Some (EXIT_FAILURE, None)).
Proof.
  unfold run_program, parse_arguments in *.
  split; [|split; [|split]].
  - intros flag Hf. rewrite (parse_loop_app _ _ _ _ Hpre).
    cbn in Hf. destruct Hf as [<-|[<-|[<-|[<-|[]]]]]; reflexivity.
  - intros flag s rest Hf Hs. rewrite (parse_loop_app _ _ _ _ Hpre).
    cbn in Hf. destruct Hf as [<-|[<-|[]]];
      cbn [parse_loop String.eqb orb Ascii.eqb Bool.eqb andb]; rewrite Hs; reflexivity.
  - intros flag s rest Hf Hs. rewrite (parse_loop_app _ _ _ _ Hpre).
    cbn in Hf. destruct Hf as [<-|[<-|[]]];
      cbn [parse_loop String.eqb orb Ascii.eqb Bool.eqb andb]; rewrite Hs; reflexivity.
  - intros arg rest Hno Hn. rewrite (parse_loop_app _ _ _ _ Hpre).
    cbn [parse_loop].
    repeat match goal with
      | |- context [String.eqb arg ?lit] =>
          let E := fresh "E" in
          destruct (String.eqb arg lit) eqn:E;
          [apply String.eqb_eq in E; subst arg; exfalso; apply Hn; cbn; tauto|]
      end.
    cbn [orb]. rewrite Hno. reflexivity.
Qed.

(** The options [parse_arguments] returns: the index is either unset (-1)
    or a non-negative [int], and [run_all_tests] stays set only when neither
    an index nor a test name was given. *)
Theorem parse_arguments_options (args : list String.string) (o : TestOptions)
  (H : parse_arguments args = Parsed o) :
  (target_test_index o = -1 \/ 0 <= target_test_index o <= 2147483647) /\
  (run_all_tests o = true -> target_test_index o = -1 /\ target_test_name o = String.EmptyString).
Proof.
  refine (parse_loop_inv args default_options o _ H).
  split; [left; reflexivity | intros _; split; reflexivity].
Qed.

(** An empty positional argument (the last one given, after no [--index])
    sets an empty test name and clears [run_all_tests]: the program then
    runs no test and exits with success, for every suite. *)
Theorem empty_name_argument_runs_nothing (suite_count : TestSuite -> nat)
  (suite_test_name : TestSuite -> nat -> String.string) (run_one : TestSuite -> nat -> result_t)
  (pre : list String.string) (o : TestOptions) (Hpre : parse_arguments pre = Parsed o)
  (Hi : target_test_index o < 0) (Hh : show_help o = false) (Hl : list_tests o = false) :
  run_program suite_count suite_test_name run_one (pre ++ [String.EmptyString]) =
  Some (EXIT_SUCCESS, Some tally0).
Proof.
  unfold run_program, parse_arguments in *.
  rewrite (parse_loop_app _ _ _ _ Hpre). cbn [parse_loop String.eqb orb not_option].
  unfold main. cbn [set_name show_help list_tests]. rewrite Hh, Hl.
  unfold run_phase. cbn [set_name target_suite run_all_tests target_test_index target_test_name].
  assert ((0 <=? target_test_index o) = false) as E by (apply Z.leb_gt; exact Hi).
  destruct (target_suite o);
    unfold single_suite_selection, run_all_suites_tests, all_suites_step, all_suites_selection;
    cbn [set_name run_all_tests target_test_index target_test_name fold_left];
    rewrite E; reflexivity.
Qed.

Local Open Scope string_scope.

Lemma parse_arguments_exit_failure_witness :
  parse_arguments ["-h"] = Parsed (set_show_help default_options) /\
  run_program (fun _ => 3%nat) (fun _ _ => "") (fun _ _ => TEST_SUCCESS) (app ["-h"] ["--bogus"]) =
  Some (EXIT_FAILURE, None).
Proof.
  split; [reflexivity|].
  apply (parse_arguments_exit_failure (fun _ => 3%nat) (fun _ _ => "") (fun _ _ => TEST_SUCCESS)
           ["-h"] (set_show_help default_options) eq_refl).
  - reflexivity.
  - cbn. intros [H|H]; [discriminate H|].
    repeat (destruct H as [H|H]; [discriminate H|]). exact H.
Defined.

Lemma parse_arguments_options_witness :
  parse_arguments ["--index"; "7"; "-v"] = Parsed (set_verbose (set_index 7 default_options)) /\
  ((target_test_index (set_verbose (set_index 7 default_options)) = -1 \/
    0 <= target_test_index (set_verbose (set_index 7 default_options)) <= 2147483647) /\
   (run_all_tests (set_verbose (set_index 7 default_options)) = true ->
    target_test_index (set_verbose (set_index 7 default_options)) = -1 /\
    target_test_name (set_verbose (set_index 7 default_options)) = "")).
Proof.
  split; [vm_compute; reflexivity|].
  apply (parse_arguments_options ["--index"; "7"; "-v"]). vm_compute. reflexivity.
Defined.

Lemma empty_name_argument_runs_nothing_witness :
  parse_arguments ["--suite"; "SSE"] = Parsed (set_suite SSE default_options) /\
  run_program (fun _ => 3%nat) (fun _ _ => "") (fun _ _ => TEST_FAIL) (app ["--suite"; "SSE"] [""]) =
  Some (EXIT_SUCCESS, Some tally0).
Proof.
  split; [vm_compute; reflexivity|].
  apply (empty_name_argument_runs_nothing _ _ _ ["--suite"; "SSE"] (set_suite SSE default_options));
    [vm_compute; reflexivity | cbn; lia | reflexivity | reflexivity].
Defined.

Local Close Scope string_scope.

Lemma all_suites_main_runs_witness :
  (forall s, s <> ALL -> (0 < 3)%nat /\ Z.of_nat 3 <= 2 ^ 32) /\
  exists t, main (fun _ => 3%nat) (fun _ _ => String.EmptyString) (fun _ _ => TEST_SUCCESS)
              (set_index 5 default_options) =
            (if (0 <? t_fail t)%nat then EXIT_FAILURE else EXIT_SUCCESS, Some t) /\
  t_ran t = map (pair SSE) (chosen_tests (fun _ => 3%nat) (fun _ _ => String.EmptyString)
                              (set_index 5 default_options) SSE) ++
            map (pair AVX) (chosen_tests (fun _ => 3%nat) (fun _ _ => String.EmptyString)
                              (set_index 5 default_options) AVX) /\
  tally_total t = length (t_ran t).
Proof.
  split; [intros s _; split; cbn; lia|].
  apply (all_suites_main_runs (fun _ => 3%nat)); [intros s _; split; cbn; lia | reflexivity..].
Defined.

Lemma single_suite_main_runs_witness :
  (forall s, s <> ALL -> (0 < 3)%nat /\ Z.of_nat 3 <= 2 ^ 32) /\
  match main (fun _ => 3%nat) (fun _ _ => String.EmptyString) (fun _ _ => TEST_SUCCESS)
         (set_index 5 (set_suite AVX default_options)) with
  | (e, Some t) =>
      e = (if (0 <? t_fail t)%nat then EXIT_FAILURE else EXIT_SUCCESS) /\
      t_ran t = map (pair AVX) (chosen_tests (fun _ => 3%nat) (fun _ _ => String.EmptyString)
                                  (set_index 5 (set_suite AVX default_options)) AVX) /\
      tally_total t = length (t_ran t)
  | (e, None) =>
      e = EXIT_FAILURE /\ run_all_tests (set_index 5 (set_suite AVX default_options)) = false /\
      chosen_tests (fun _ => 3%nat) (fun _ _ => String.EmptyString)
        (set_index 5 (set_suite AVX default_options)) AVX = [] /\
      (0 <= target_test_index (set_index 5 (set_suite AVX default_options)) \/
       target_test_name (set_index 5 (set_suite AVX default_options)) <> String.EmptyString)
  end.
Proof.
  split; [intros s _; split; cbn; lia|].
  apply (single_suite_main_runs (fun _ => 3%nat)); [intros s _; split; cbn; lia | reflexivity | discriminate | reflexivity | reflexivity].
Defined.

Lemma unmatched_selection_all_vs_single_witness :
  (forall s, s <> ALL -> (0 < 3)%nat /\ Z.of_nat 3 <= 2 ^ 32) /\
  main (fun _ => 3%nat) (fun _ _ => String.EmptyString) (fun _ _ => TEST_SUCCESS)
    (set_suite ALL (set_index 5 default_options)) = (EXIT_SUCCESS, Some tally0) /\
  (forall s, s <> ALL -> main (fun _ => 3%nat) (fun _ _ => String.EmptyString) (fun _ _ => TEST_SUCCESS)
                           (set_suite s (set_index 5 default_options)) = (EXIT_FAILURE, None)).
Proof.
  split; [intros s _; split; cbn; lia|].
  apply (unmatched_selection_all_vs_single (fun _ => 3%nat)); try reflexivity.
  - intros s _. split; cbn; lia.
  - left. split; [cbn; lia|]. intros s _. cbn. lia.
Defined.
